(** * A shallow embedding of the SDL3 sprite-batch sample (src/main.cpp)

    The program is an SDL3 callback application: [SDL_AppInit] sets the
    window, the GPU device and the assets up, [SDL_AppEvent] records a quit
    request, and [SDL_AppIterate] fills the sprite transfer buffer with
    [SPRITE_COUNT] randomly placed sprites, uploads it and draws it.

    The SDL runtime is external to the program.  Its answers (which calls
    succeed, what memory a mapping returns, what the random generator
    yields) are inputs of the model; the calls the program makes are
    recorded in a trace. *)

From Stdlib Require Import ZArith Reals Machin Lra Lia Floats.SpecFloat Ascii.
From stdpp Require Import base list strings.

Open Scope Z_scope.

(** ** Single-precision floats

    The C type [float] is IEEE-754 binary32: 24 bits of precision and
    infinities at exponent 128.  Values are the Standard Library's
    [spec_float]; arithmetic rounds to nearest, ties to even. *)

Module F32.

Definition prec : Z := 24.
Definition emax : Z := 128.

Definition float : Type := spec_float.

(** [(float) n] for an integer [n]. *)
Definition of_Z (n : Z) : float := binary_normalize prec emax n 0 false.

(** The literal [m * 2^e]. *)
Definition of_dyadic (m e : Z) : float := binary_normalize prec emax m e false.

(** The decimal literal [m / 10^k], correctly rounded. *)
Definition of_decimal (m : Z) (k : Z) : float :=
  let '(q, e, l) := SFdiv_core_binary prec emax m 0 (10 ^ k) 0 in
  binary_round_aux prec emax false q e l.

Definition mul (x y : float) : float := SFmul prec emax x y.

Definition leb (x y : float) : bool := SFleb x y.
Definition ltb (x y : float) : bool := SFltb x y.

Definition zero : float := S754_zero false.
Definition half : float := Eval vm_compute in of_dyadic 1 (-1).
Definition one : float := Eval vm_compute in of_Z 1.
Definition two : float := Eval vm_compute in of_Z 2.

(** A well-formed binary32 value in [0, 1). *)
Definition in_unit_interval (f : float) : bool :=
  valid_binary prec emax f && leb zero f && ltb f one.

(** The real number a float denotes (0 for infinities and NaN, which
    the program never produces). *)
Definition to_R (f : float) : R :=
  match f with
  | S754_finite s m e => (IZR (cond_Zopp s (Zpos m)) * powerRZ 2 e)%R
  | _ => 0%R
  end.

Definition is_finite (f : float) : bool :=
  match f with
  | S754_zero _ | S754_finite _ _ _ => true
  | _ => false
  end.

End F32.

Abbreviation float := F32.float.

(** [SDL_PI_F], as SDL_stdinc.h spells it. *)
Definition SDL_PI_F : float :=
  Eval vm_compute in F32.of_decimal 3141592653589793238462643383279502884 36.

(** ** Data model *)

(** [struct SpriteInstance] (main.cpp:32-39). *)
Record SpriteInstance := {
  x : float; y : float; z : float;
  rotation : float;
  w : float; h : float; padding_a : float; padding_b : float;
  tex_u : float; tex_v : float; tex_w : float; tex_h : float;
  r : float; g : float; b : float; a : float
}.

(** [static const Uint32 SPRITE_COUNT = 8192]; the loop counter never
    leaves [0 .. 8192], so it is a [nat]. *)
Definition SPRITE_COUNT : nat := Z.to_nat 8192.

Definition windowStartWidth : Z := 640.
Definition windowStartHeight : Z := 480.

(** [uCoords] and [vCoords] (main.cpp:378-379). *)
Definition uCoords : list float := [F32.zero; F32.half; F32.zero; F32.half].
Definition vCoords : list float := [F32.zero; F32.zero; F32.half; F32.half].

(** ** The random generator

    [SDL_rand] and [SDL_randf] draw from SDL's process-wide generator.
    The generator is an interface: a state, the two draws the program
    uses, and the ranges SDL documents for them. *)
Class RandomSource (rng : Type) := {
  SDL_rand : Z -> rng -> Z * rng;
  SDL_randf : rng -> float * rng;
  SDL_rand_range : forall n s, 0 < n -> 0 <= fst (SDL_rand n s) < n;
  SDL_randf_range : forall s, F32.in_unit_interval (fst (SDL_randf s)) = true
}.

(** A scripted generator, for running the program on chosen draws.  Its
    state is the list of 32-bit words still to come (zero once the list is
    exhausted); [SDL_rand n] scales a word to [0, n) in fixed point, and
    [SDL_randf] is the top 24 bits of a word times [2^-24]. *)
Definition scripted_bits (s : list Z) : Z * list Z :=
  match s with
  | [] => (0, [])
  | v :: s' => (v mod 2 ^ 32, s')
  end.

Definition scripted_rand (n : Z) (s : list Z) : Z * list Z :=
  let '(v, s') := scripted_bits s in
  (if n <? 0 then 0 else Z.shiftr (v * n) 32, s').

Definition scripted_randf (s : list Z) : float * list Z :=
  let '(v, s') := scripted_bits s in
  (F32.mul (F32.of_Z (Z.shiftr v 8)) (F32.of_dyadic 1 (-24)), s').

(** ** The sprite-batch build loop (main.cpp:420-437) *)

Section Build.
Context {rng : Type} `{RandomSource rng}.

(** One iteration of the loop body, on slot [i].  The draws are made in
    source order.  The slot is updated field by field, so the two padding
    fields, which the body never assigns, keep what the mapped memory
    held.  An index outside the mapped memory or outside the coordinate
    tables is undefined behaviour: [None]. *)
Definition write_sprite (i : nat) (st : rng * list SpriteInstance)
  : option (rng * list SpriteInstance) :=
  let '(s0, dataPtr) := st in
  let '(ravioli, s1) := SDL_rand 4 s0 in
  let '(rx, s2) := SDL_rand 640 s1 in
  let '(ry, s3) := SDL_rand 480 s2 in
  let '(rf, s4) := SDL_randf s3 in
  old ← dataPtr !! i;
  u ← (if ravioli <? 0 then None else uCoords !! Z.to_nat ravioli);
  v ← (if ravioli <? 0 then None else vCoords !! Z.to_nat ravioli);
  Some (s4, <[i := {|
    x := F32.of_Z rx;
    y := F32.of_Z ry;
    z := F32.of_Z 0;
    rotation := F32.mul (F32.mul rf SDL_PI_F) (F32.of_Z 2);
    w := F32.of_Z 32;
    h := F32.of_Z 32;
    padding_a := padding_a old;
    padding_b := padding_b old;
    tex_u := u;
    tex_v := v;
    tex_w := F32.half;
    tex_h := F32.half;
    r := F32.one;
    g := F32.one;
    b := F32.one;
    a := F32.one
  |}]> dataPtr).

(** The [n] iterations of [for (Uint32 i = 0; i < SPRITE_COUNT; i += 1)]
    that remain when the counter is [i]. *)
Fixpoint for_sprites (n : nat) (i : nat) (st : rng * list SpriteInstance)
  : option (rng * list SpriteInstance) :=
  match n with
  | O => Some st
  | S n' => st' ← write_sprite i st; for_sprites n' (S i) st'
  end.

Definition build_sprites (s : rng) (dataPtr : list SpriteInstance)
  : option (rng * list SpriteInstance) :=
  for_sprites SPRITE_COUNT 0 (s, dataPtr).

End Build.

(** ** The application: results, events, backend calls *)

(** Conversion to [Uint32], and the range of [int]. *)
Definition to_Uint32 (v : Z) : Z := v mod 2 ^ 32.

Definition in_int (v : Z) : bool := (- 2 ^ 31 <=? v) && (v <? 2 ^ 31).

(** [base / name] of [std::filesystem::path] for a relative [name], in
    the generic format: a separator is put between the two unless [base]
    is empty or ends in one. *)
Fixpoint ends_in_separator (base : string) : bool :=
  match base with
  | EmptyString => false
  | String c EmptyString => Ascii.eqb c "/"%char
  | String _ rest => ends_in_separator rest
  end.

Definition path_append (base name : string) : string :=
  if String.eqb base EmptyString || ends_in_separator base then base +:+ name
  else base +:+ "/" +:+ name.

Inductive SDL_AppResult := SDL_APP_CONTINUE | SDL_APP_SUCCESS | SDL_APP_FAILURE.

Inductive SDL_GPUPresentMode :=
  SDL_GPU_PRESENTMODE_VSYNC | SDL_GPU_PRESENTMODE_IMMEDIATE | SDL_GPU_PRESENTMODE_MAILBOX.

Inductive SDL_GPUSwapchainComposition := SDL_GPU_SWAPCHAINCOMPOSITION_SDR.

(** The events [SDL_AppEvent] can be handed; only the type is looked at. *)
Inductive SDL_Event :=
  | SDL_EVENT_QUIT
  | SDL_EVENT_WINDOW_RESIZED (width height : Z)
  | SDL_EVENT_OTHER (type : Z).

(** Objects of the runtime are opaque handles; [None] is [NULL]. *)
Definition Handle : Type := nat.

(** [struct AppContext] (main.cpp:15-24). *)
Record AppContext := {
  window : Handle;
  device : Handle;
  audioDevice : Handle;
  music : Handle;
  app_quit : SDL_AppResult
}.

(** Arguments of a log format. *)
Inductive LogArg := ArgInt (n : Z) | ArgStr (s : string).

(** The calls the program makes to the runtime whose effect lies outside
    the program, in the order it makes them. *)
Inductive Call :=
  | SDL_Log (fmt : string) (args : list LogArg)
  | SDL_LogError (fmt : string) (args : list LogArg)
  | SDL_SetGPUSwapchainParameters
      (composition : SDL_GPUSwapchainComposition) (mode : SDL_GPUPresentMode)
  | SDL_srand (seed : Z)
  | SDL_CreateGPUGraphicsPipeline (vert frag : option Handle)
  | SDL_CreateGPUTransferBuffer (size : Z)
  | SDL_CreateGPUBuffer (size : Z)
  | SDL_CreateGPUTexture (width height : Z)
  | SDL_CreateGPUSampler
  | SDL_ReleaseGPUShader (shader : option Handle)
  | SDL_UploadToGPUTexture (width height : Z)
  | SDL_DestroySurface (surface : option Handle)
  | SDL_ReleaseGPUTransferBuffer
  | TTF_RenderText_Solid (font : Handle) (text : string)
  | TTF_CloseFont (font : Handle)
  | IMG_Load (path : string)
  | Mix_PlayMusic (m : Handle) (loops : Z)
  | SDL_ShowWindow (win : Handle)
  | SDL_AcquireGPUCommandBuffer (dev : Handle)
  | SDL_WaitAndAcquireGPUSwapchainTexture (cmdBuf win : Handle)
  | SDL_MapGPUTransferBuffer (dev : Handle) (cycle : bool)
  | SDL_UnmapGPUTransferBuffer (dev : Handle)
  | SDL_BeginGPUCopyPass (cmdBuf : Handle)
  | SDL_UploadToGPUBuffer (records : nat) (cycle : bool)
  | SDL_EndGPUCopyPass
  | SDL_BeginGPURenderPass (cmdBuf : Handle) (target : Handle)
  | SDL_BindGPUGraphicsPipeline
  | SDL_BindGPUVertexStorageBuffers
  | SDL_BindGPUFragmentSamplers
  | SDL_PushGPUVertexUniformData (cmdBuf : Handle) (left right bottom top : Z)
  | SDL_DrawGPUPrimitives (num_vertices num_instances : nat)
  | SDL_EndGPURenderPass
  | SDL_SubmitGPUCommandBuffer (cmdBuf : Handle).

(** What the program owns besides its [AppContext]: the generator SDL
    keeps for it, the contents of the two sprite buffers, and the calls
    made so far. *)
Record World (rng : Type) := {
  rand_state : rng;
  SpriteDataTransferBuffer : list SpriteInstance;
  SpriteDataBuffer : list SpriteInstance;
  trace : list Call
}.
Arguments rand_state {rng}.
Arguments SpriteDataTransferBuffer {rng}.
Arguments SpriteDataBuffer {rng}.
Arguments trace {rng}.

(** How a piece of code ends: it falls through with a value, it executes
    [return res], or it has run into undefined behaviour. *)
Inductive Outcome (A : Type) :=
  | Value (v : A)
  | Returned (res : SDL_AppResult)
  | Undefined.
Arguments Value {A}.
Arguments Returned {A}.
Arguments Undefined {A}.

(** Code that threads a state and may return early. *)
Definition Cmd (St A : Type) : Type := St -> St * Outcome A.

Definition ret {St A} (v : A) : Cmd St A := fun st => (st, Value v).

Definition bind {St A B} (m : Cmd St A) (k : A -> Cmd St B) : Cmd St B :=
  fun st =>
    match m st with
    | (st', Value v) => k v st'
    | (st', Returned res) => (st', Returned res)
    | (st', Undefined) => (st', Undefined)
    end.

Definition return_ {St A} (res : SDL_AppResult) : Cmd St A :=
  fun st => (st, Returned res).

Notation "'do' v <- m ; k" := (bind m (fun v => k))
  (at level 10, v name, m at level 100, k at level 200).
Notation "m ;; k" := (bind m (fun _ => k))
  (at level 100, k at level 200, right associativity).

(** The result a callback hands back to SDL. *)
Definition run {St} (m : Cmd St SDL_AppResult) (st : St)
  : St * option SDL_AppResult :=
  match m st with
  | (st', Value res) => (st', Some res)
  | (st', Returned res) => (st', Some res)
  | (st', Undefined) => (st', None)
  end.

Section App.
Context {rng : Type} `{RandomSource rng}.

Definition call (c : Call) : Cmd (World rng) unit :=
  fun wd => ({| rand_state := rand_state wd;
               SpriteDataTransferBuffer := SpriteDataTransferBuffer wd;
               SpriteDataBuffer := SpriteDataBuffer wd;
               trace := trace wd ++ [c] |}, Value tt).

(** [SDL_Fail] (main.cpp:44-47); [err] is what [SDL_GetError] reports. *)
Definition SDL_Fail {A} (err : string) : Cmd (World rng) A :=
  call (SDL_LogError "Error %s" [ArgStr err]) ;; return_ SDL_APP_FAILURE.

(** [SDL_AppEvent] (main.cpp:368-376): the context it leaves and the
    result it returns. *)
Definition SDL_AppEvent (app : AppContext) (event : SDL_Event)
  : AppContext * SDL_AppResult :=
  match event with
  | SDL_EVENT_QUIT =>
      ({| window := window app; device := device app;
          audioDevice := audioDevice app; music := music app;
          app_quit := SDL_APP_SUCCESS |}, SDL_APP_CONTINUE)
  | _ => (app, SDL_APP_CONTINUE)
  end.

(** What the runtime answers during one [SDL_AppIterate].  The calls
    it answers are recorded in the trace with the handles they are made
    on: the device and the window of the context. *)
Record FrameEnv := {
  (** [SDL_AcquireGPUCommandBuffer] *)
  acquired_command_buffer : option Handle;
  (** whether [SDL_WaitAndAcquireGPUSwapchainTexture] succeeds, and the
      texture it stores *)
  swapchain_acquired : bool;
  swapchainTexture : option Handle;
  (** the memory [SDL_MapGPUTransferBuffer] gives access to; with
      [cycle = true] its contents are whatever the runtime hands out,
      and a failed mapping gives access to nothing *)
  mapped_memory : list SpriteInstance;
  (** the logical size of the window at this frame *)
  window_size : Z * Z;
  (** [SDL_GetError] *)
  frame_error : string
}.

(** Lines 414-439: map, fill, unmap. *)
Definition build_transfer (app : AppContext) (env : FrameEnv) : Cmd (World rng) unit :=
  call (SDL_MapGPUTransferBuffer (device app) true) ;;
  (fun wd =>
     match build_sprites (rand_state wd) (mapped_memory env) with
     | Some (s', data) =>
         ({| rand_state := s';
             SpriteDataTransferBuffer := data;
             SpriteDataBuffer := SpriteDataBuffer wd;
             trace := trace wd |}, Value tt)
     | None => (wd, Undefined)
     end) ;;
  call (SDL_UnmapGPUTransferBuffer (device app)).

(** Lines 441-459: copy the transfer buffer into the GPU buffer. *)
Definition upload_instances (cmdBuf : Handle) : Cmd (World rng) unit :=
  call (SDL_BeginGPUCopyPass cmdBuf) ;;
  call (SDL_UploadToGPUBuffer SPRITE_COUNT true) ;;
  (fun wd =>
     ({| rand_state := rand_state wd;
         SpriteDataTransferBuffer := SpriteDataTransferBuffer wd;
         SpriteDataBuffer := take SPRITE_COUNT (SpriteDataTransferBuffer wd);
         trace := trace wd |}, Value tt)) ;;
  call SDL_EndGPUCopyPass.

(** Lines 461-509: one render pass, one draw call. *)
Definition render_sprites (cmdBuf tex : Handle) : Cmd (World rng) unit :=
  call (SDL_BeginGPURenderPass cmdBuf tex) ;;
  call SDL_BindGPUGraphicsPipeline ;;
  call SDL_BindGPUVertexStorageBuffers ;;
  call SDL_BindGPUFragmentSamplers ;;
  call (SDL_PushGPUVertexUniformData cmdBuf 0 640 480 0) ;;
  call (SDL_DrawGPUPrimitives (SPRITE_COUNT * 6) 1) ;;
  call SDL_EndGPURenderPass.

(** [SDL_AppIterate] (main.cpp:380-515).  The clear colour computed from
    [SDL_GetTicks] at its start is never used and is left out. *)
Definition SDL_AppIterate (app : AppContext) (env : FrameEnv)
  : Cmd (World rng) SDL_AppResult :=
  call (SDL_AcquireGPUCommandBuffer (device app)) ;;
  match acquired_command_buffer env with
  | None =>
      call (SDL_Log "AcquireGPUCommandBuffer failed: %s" [ArgStr (frame_error env)]) ;;
      SDL_Fail (frame_error env)
  | Some cmdBuf =>
      call (SDL_WaitAndAcquireGPUSwapchainTexture cmdBuf (window app)) ;;
      if negb (swapchain_acquired env) then
        call (SDL_Log "WaitAndAcquireGPUSwapchainTexture failed: %s"
                      [ArgStr (frame_error env)]) ;;
        SDL_Fail (frame_error env)
      else
        match swapchainTexture env with
        | Some tex =>
            build_transfer app env ;;
            upload_instances cmdBuf ;;
            render_sprites cmdBuf tex
        | None => ret tt
        end ;;
        call (SDL_SubmitGPUCommandBuffer cmdBuf) ;;
        ret (app_quit app)
  end.

(** What the runtime answers during [SDL_AppInit].  [LoadShader] and
    [LoadImage] are the helpers of common.h; they return [NULL] when the
    file cannot be loaded. *)
Record InitEnv := {
  SDL_Init_ok : bool;
  TTF_Init_ok : bool;
  SDL_CreateWindow : option Handle;
  SDL_GetBasePath : option string;
  SDL_CreateGPUDevice : option Handle;
  SDL_ClaimWindowForGPUDevice : bool;
  SDL_WindowSupportsGPUPresentMode : SDL_GPUPresentMode -> bool;
  (** the state [SDL_srand seed] leaves the generator in *)
  seeded : Z -> rng;
  LoadShader : string -> string -> option Handle;
  (** the surface and its width and height, both of type [int] *)
  LoadImage : string -> string -> option (Handle * Z * Z);
  (** whether [SDL_MapGPUTransferBuffer] gives access to the texture
      transfer buffer; [false] is [NULL] *)
  texture_transfer_mapped : bool;
  (** the contents of the sprite buffers when they are created *)
  fresh_transfer_memory : list SpriteInstance;
  fresh_buffer_memory : list SpriteInstance;
  upload_command_buffer : Handle;
  TTF_OpenFont : string -> option Handle;
  rendered_text : option Handle;
  SDL_OpenAudioDevice : option Handle;
  Mix_OpenAudio : bool;
  Mix_LoadMUS : string -> option Handle;
  SDL_GetWindowSize : Z * Z;
  SDL_GetWindowSizeInPixels : Z * Z;
  (** [SDL_GetError] *)
  init_error : string
}.

(** [if (not ok) return SDL_Fail();] *)
Definition check (ok : bool) (err : string) : Cmd (World rng) unit :=
  if ok then ret tt else SDL_Fail err.

(** [p = f(...); if (not p) return SDL_Fail();] *)
Definition check_ptr {A} (p : option A) (err : string) : Cmd (World rng) A :=
  match p with
  | Some v => ret v
  | None => SDL_Fail err
  end.

(** Lines 97-111: the present mode the program asks for. *)
Definition choose_present_mode (supports : SDL_GPUPresentMode -> bool)
  : SDL_GPUPresentMode :=
  if supports SDL_GPU_PRESENTMODE_IMMEDIATE then SDL_GPU_PRESENTMODE_IMMEDIATE
  else if supports SDL_GPU_PRESENTMODE_MAILBOX then SDL_GPU_PRESENTMODE_MAILBOX
  else SDL_GPU_PRESENTMODE_VSYNC.

Definition set_world (f : World rng -> World rng) : Cmd (World rng) unit :=
  fun wd => (f wd, Value tt).

Definition undefined {A} : Cmd (World rng) A := fun wd => (wd, Undefined).

(** [SDL_memcpy(textureTransferPtr, imageData->pixels,
    imageData->w * imageData->h * 4)] (main.cpp:199).  The destination is
    used untested; it is the mapped buffer of [size] bytes, or [NULL].
    The length is computed in [int] and converted to [size_t]. *)
Definition copy_pixels (mapped : bool) (size image_w image_h : Z)
  : Cmd (World rng) unit :=
  let n := image_w * image_h * 4 in
  if mapped && in_int (image_w * image_h) && in_int n && (0 <=? n) && (n <=? size)
  then ret tt
  else undefined.

(** [SDL_AppInit] (main.cpp:49-366), outside Android.  It falls through
    with the context it stores in [*appstate] and the result it returns. *)
Definition SDL_AppInit (env : InitEnv)
  : Cmd (World rng) (AppContext * SDL_AppResult) :=
  let err := init_error env in
  check (SDL_Init_ok env) err ;;
  check (TTF_Init_ok env) err ;;
  do win <- check_ptr (SDL_CreateWindow env) err ;
  do basePath <- check_ptr (SDL_GetBasePath env) err ;
  do dev <- match SDL_CreateGPUDevice env with
            | Some d => ret d
            | None => call (SDL_Log "GPUCreateDevice failed" []) ;; SDL_Fail err
            end ;
  (if SDL_ClaimWindowForGPUDevice env then ret tt
   else call (SDL_Log "GPUClaimWindow failed" []) ;; SDL_Fail err) ;;
  let presentMode := choose_present_mode (SDL_WindowSupportsGPUPresentMode env) in
  call (SDL_SetGPUSwapchainParameters SDL_GPU_SWAPCHAINCOMPOSITION_SDR presentMode) ;;
  call (SDL_srand 0) ;;
  set_world (fun wd => {| rand_state := seeded env 0;
                          SpriteDataTransferBuffer := SpriteDataTransferBuffer wd;
                          SpriteDataBuffer := SpriteDataBuffer wd;
                          trace := trace wd |}) ;;
  (* Create the shaders *)
  let vertShader := LoadShader env basePath "PullSpriteBatch.vert" in
  let fragShader := LoadShader env basePath "TexturedQuadColor.frag" in
  call (SDL_CreateGPUGraphicsPipeline vertShader fragShader) ;;
  call (SDL_ReleaseGPUShader vertShader) ;;
  call (SDL_ReleaseGPUShader fragShader) ;;
  (* Load the image data *)
  do imageData <- match LoadImage env basePath "ravioli_atlas.bmp" with
                  | Some i => ret i
                  | None => call (SDL_Log "Could not load image data!" []) ;; SDL_Fail err
                  end ;
  let '(surface, image_w, image_h) := imageData in
  let size := to_Uint32 (image_w * image_h * 4) in
  call (SDL_CreateGPUTransferBuffer size) ;;
  call (SDL_MapGPUTransferBuffer dev false) ;;
  copy_pixels (texture_transfer_mapped env) size image_w image_h ;;
  call (SDL_UnmapGPUTransferBuffer dev) ;;
  (* Create the GPU resources *)
  call (SDL_CreateGPUTexture (to_Uint32 image_w) (to_Uint32 image_h)) ;;
  call SDL_CreateGPUSampler ;;
  call (SDL_CreateGPUTransferBuffer (Z.of_nat SPRITE_COUNT * 64)) ;;
  call (SDL_CreateGPUBuffer (Z.of_nat SPRITE_COUNT * 64)) ;;
  set_world (fun wd => {| rand_state := rand_state wd;
                          SpriteDataTransferBuffer := fresh_transfer_memory env;
                          SpriteDataBuffer := fresh_buffer_memory env;
                          trace := trace wd |}) ;;
  (* Transfer the up-front data *)
  call (SDL_AcquireGPUCommandBuffer dev) ;;
  call (SDL_BeginGPUCopyPass (upload_command_buffer env)) ;;
  call (SDL_UploadToGPUTexture (to_Uint32 image_w) (to_Uint32 image_h)) ;;
  call SDL_EndGPUCopyPass ;;
  call (SDL_SubmitGPUCommandBuffer (upload_command_buffer env)) ;;
  call (SDL_DestroySurface (Some surface)) ;;
  call SDL_ReleaseGPUTransferBuffer ;;
  (* load the font and render the text *)
  do font <- check_ptr (TTF_OpenFont env (path_append basePath "Inter-VariableFont.ttf")) err ;
  call (TTF_RenderText_Solid font "Hello SDL!") ;;
  call (TTF_CloseFont font) ;;
  call (SDL_DestroySurface (rendered_text env)) ;;
  (* load the SVG *)
  call (IMG_Load (path_append basePath "gs_tiger.svg")) ;;
  (* init SDL Mixer *)
  do audio <- check_ptr (SDL_OpenAudioDevice env) err ;
  check (Mix_OpenAudio env) err ;;
  (* load and play the music *)
  do mus <- check_ptr (Mix_LoadMUS env (path_append basePath "the_entertainer.ogg")) err ;
  call (Mix_PlayMusic mus 0) ;;
  call (SDL_ShowWindow win) ;;
  let '(width, height) := SDL_GetWindowSize env in
  let '(bbwidth, bbheight) := SDL_GetWindowSizeInPixels env in
  call (SDL_Log "Window size: %ix%i" [ArgInt width; ArgInt height]) ;;
  call (SDL_Log "Backbuffer size: %ix%i" [ArgInt bbwidth; ArgInt bbheight]) ;;
  (if negb (width =? bbwidth) then call (SDL_Log "This is a highdpi environment." [])
   else ret tt) ;;
  call (SDL_Log "Application started successfully!" []) ;;
  ret ({| window := win; device := dev; audioDevice := audio; music := mus;
          app_quit := SDL_APP_CONTINUE |}, SDL_APP_CONTINUE).

(** What SDL sees of [SDL_AppInit]: the world it leaves, the result it
    returns and, when it reaches its end, the context in [*appstate]. *)
Definition app_init (env : InitEnv) (wd : World rng)
  : World rng * option SDL_AppResult * option AppContext :=
  match SDL_AppInit env wd with
  | (wd', Value (app, res)) => (wd', Some res, Some app)
  | (wd', Returned res) => (wd', Some res, None)
  | (wd', Undefined) => (wd', None, None)
  end.

End App.

(** ** Rounding, as the float operations perform it *)

(** The state of the shifter after [k] steps on an exact [n]. *)
Definition shifted (n : Z) (k : nat) : shr_record :=
  let K := 2 ^ Z.of_nat k in
  let rem := n mod K in
  Build_shr_record (n / K) (K <=? 2 * rem) (negb (rem =? 0) && negb (2 * rem =? K)).

(** The mantissa after [k] steps and rounding to nearest, ties to even. *)
Definition rne (n : Z) (k : nat) : Z :=
  round_nearest_even (shr_m (shifted n k)) (loc_of_shr_record (shifted n k)).



(** ** Vocabulary of the statements *)

Section Vocabulary.
Context {rng : Type} `{RandomSource rng}.

(** The generator after the four draws of one loop iteration, and at
    the start of iteration [i]. *)
Definition after_sprite (s : rng) : rng :=
  snd (SDL_randf (snd (SDL_rand 480 (snd (SDL_rand 640 (snd (SDL_rand 4 s))))))).

Definition rng_at (i : nat) (s : rng) : rng := Nat.iter i after_sprite s.

(** The record one run of the loop body leaves in a slot that held
    [old], when the generator is in state [s]. *)
Definition sprite_from (s : rng) (old : SpriteInstance) : option SpriteInstance :=
  match write_sprite 0 (s, [old]) with
  | Some (_, [sp]) => Some sp
  | _ => None
  end.

(** The frame reaches the build step: both acquisitions succeed and
    there is a swapchain texture. *)
Definition builds (env : FrameEnv) : bool :=
  match acquired_command_buffer env, swapchainTexture env with
  | Some _, Some _ => swapchain_acquired env
  | _, _ => false
  end.

(** No backend call of the frame fails. *)
Definition frame_succeeds (env : FrameEnv) : bool :=
  match acquired_command_buffer env with
  | Some _ =>
      swapchain_acquired env &&
      match swapchainTexture env with
      | Some _ => bool_decide (SPRITE_COUNT <= length (mapped_memory env))%nat
      | None => true
      end
  | None => false
  end.

(** Two generator states are related by [R] when they yield the same
    draws, now and ever after. *)
Definition same_draws (R : rng -> rng -> Prop) : Prop :=
  forall s1 s2, R s1 s2 ->
    (forall n, fst (SDL_rand n s1) = fst (SDL_rand n s2) /\
               R (snd (SDL_rand n s1)) (snd (SDL_rand n s2))) /\
    fst (SDL_randf s1) = fst (SDL_randf s2) /\
    R (snd (SDL_randf s1)) (snd (SDL_randf s2)).

End Vocabulary.

(** The fields of a record that the loop body assigns. *)
Definition written (sp : SpriteInstance) : list float :=
  [x sp; y sp; z sp; rotation sp; w sp; h sp;
   tex_u sp; tex_v sp; tex_w sp; tex_h sp; r sp; g sp; b sp; a sp].

(** The context after a run of events. *)
Definition handle_events (app : AppContext) (events : list SDL_Event) : AppContext :=
  fold_left (fun ctx ev => fst (SDL_AppEvent ctx ev)) events app.

Definition is_quit (ev : SDL_Event) : bool :=
  match ev with SDL_EVENT_QUIT => true | _ => false end.

Definition quit_received (events : list SDL_Event) : bool := existsb is_quit events.

(** The calls of a frame that reaches the build step, in order. *)
Definition frame_calls (app : AppContext) (cmdBuf tex : Handle) : list Call :=
  [SDL_AcquireGPUCommandBuffer (device app);
   SDL_WaitAndAcquireGPUSwapchainTexture cmdBuf (window app);
   SDL_MapGPUTransferBuffer (device app) true;
   SDL_UnmapGPUTransferBuffer (device app);
   SDL_BeginGPUCopyPass cmdBuf;
   SDL_UploadToGPUBuffer SPRITE_COUNT true;
   SDL_EndGPUCopyPass;
   SDL_BeginGPURenderPass cmdBuf tex;
   SDL_BindGPUGraphicsPipeline;
   SDL_BindGPUVertexStorageBuffers;
   SDL_BindGPUFragmentSamplers;
   SDL_PushGPUVertexUniformData cmdBuf 0 640 480 0;
   SDL_DrawGPUPrimitives (SPRITE_COUNT * 6) 1;
   SDL_EndGPURenderPass;
   SDL_SubmitGPUCommandBuffer cmdBuf].

(** ** Concrete inputs *)

Definition sprite_of (f : float) : SpriteInstance :=
  {| x := f; y := f; z := f; rotation := f; w := f; h := f;
     padding_a := f; padding_b := f;
     tex_u := f; tex_v := f; tex_w := f; tex_h := f;
     r := f; g := f; b := f; a := f |}.

(** Mapped memory of the right size, every field of every record [f]. *)
Definition memory_of (f : float) : list SpriteInstance :=
  replicate SPRITE_COUNT (sprite_of f).

Definition app0 : AppContext :=
  {| window := 1%nat; device := 2%nat; audioDevice := 3%nat; music := 4%nat;
     app_quit := SDL_APP_CONTINUE |}.

(** A world whose scripted generator will yield the words [script]. *)
Definition world_of (script : list Z) : World (list Z) :=
  {| rand_state := script;
     SpriteDataTransferBuffer := memory_of F32.zero;
     SpriteDataBuffer := memory_of F32.zero;
     trace := [] |}.

(** A frame in which everything succeeds, on a window of the given
    logical size and mapped memory filled with [f]. *)
Definition frame_of (size : Z * Z) (f : float) : FrameEnv :=
  {| acquired_command_buffer := Some 7%nat;
     swapchain_acquired := true;
     swapchainTexture := Some 8%nat;
     mapped_memory := memory_of f;
     window_size := size;
     frame_error := "" |}.

(** The same frame when the swapchain yields no texture. *)
Definition frame_without_texture : FrameEnv :=
  {| acquired_command_buffer := Some 7%nat;
     swapchain_acquired := true;
     swapchainTexture := None;
     mapped_memory := memory_of F32.zero;
     window_size := (640, 480);
     frame_error := "" |}.

(** ** Runs of several frames *)

Section Runs.
Context {rng : Type} `{RandomSource rng}.

(** The worlds after each frame of a run. *)
Fixpoint frames_from (app : AppContext) (envs : list FrameEnv) (wd : World rng)
  : list (World rng) :=
  match envs with
  | [] => []
  | env :: rest =>
      let wd' := fst (run (SDL_AppIterate app env) wd) in
      wd' :: frames_from app rest wd'
  end.

(** Two frames take the same course: both reach the build step or
    neither does, and the mapped memory is large enough. *)
Definition same_course (e1 e2 : FrameEnv) : Prop :=
  builds e1 = builds e2 /\
  (SPRITE_COUNT <= length (mapped_memory e1))%nat /\
  (SPRITE_COUNT <= length (mapped_memory e2))%nat.

End Runs.

(** ** Concrete start-ups *)

(** A runtime in which every tested call of [SDL_AppInit] succeeds,
    except that loading the assets named in [missing] fails.  The atlas
    image has the given size, and [mapped] tells whether the texture
    transfer buffer can be mapped. *)
Definition start_env (mapped : bool) (size : Z * Z)
           (missing : list string) (supported : list SDL_GPUPresentMode)
  : InitEnv (rng := list Z) :=
  let present (name : string) := negb (existsb (String.eqb name) missing) in
  {| SDL_Init_ok := true;
     TTF_Init_ok := true;
     SDL_CreateWindow := Some 1%nat;
     SDL_GetBasePath := Some "/app/";
     SDL_CreateGPUDevice := Some 2%nat;
     SDL_ClaimWindowForGPUDevice := true;
     SDL_WindowSupportsGPUPresentMode := fun mode =>
       existsb (fun m => match m, mode with
                         | SDL_GPU_PRESENTMODE_VSYNC, SDL_GPU_PRESENTMODE_VSYNC
                         | SDL_GPU_PRESENTMODE_IMMEDIATE, SDL_GPU_PRESENTMODE_IMMEDIATE
                         | SDL_GPU_PRESENTMODE_MAILBOX, SDL_GPU_PRESENTMODE_MAILBOX => true
                         | _, _ => false
                         end) supported;
     seeded := fun _ => [];
     LoadShader := fun _ name => if present name then Some 10%nat else None;
     LoadImage := fun _ name =>
       if present name then Some (11%nat, fst size, snd size) else None;
     texture_transfer_mapped := mapped;
     fresh_transfer_memory := memory_of F32.zero;
     fresh_buffer_memory := memory_of F32.zero;
     upload_command_buffer := 12%nat;
     TTF_OpenFont := fun path =>
       if present path then Some 13%nat else None;
     rendered_text := Some 14%nat;
     SDL_OpenAudioDevice := Some 3%nat;
     Mix_OpenAudio := true;
     Mix_LoadMUS := fun path => if present path then Some 4%nat else None;
     SDL_GetWindowSize := (640, 480);
     SDL_GetWindowSizeInPixels := (640, 480);
     init_error := "file not found" |}.

(** The same with a 64x64 atlas that can be mapped. *)
Definition init_env (missing : list string) (supported : list SDL_GPUPresentMode)
  : InitEnv (rng := list Z) :=
  start_env true (64, 64) missing supported.

(** The world before [SDL_AppInit]: no buffers, nothing called. *)
Definition world_before_init : World (list Z) :=
  {| rand_state := []; SpriteDataTransferBuffer := []; SpriteDataBuffer := []; trace := [] |}.

Definition is_error_log (c : Call) : bool :=
  match c with SDL_LogError _ _ => true | _ => false end.

Definition is_swapchain_parameters (c : Call) : bool :=
  match c with SDL_SetGPUSwapchainParameters _ _ => true | _ => false end.

(** ** Reasoning about commands *)

Section CommandPredicates.
Context {rng : Type}.

(** Whenever [m] falls through, its value satisfies [Q]. *)
Definition ends_with {A} (m : Cmd (World rng) A) (Q : A -> Prop) : Prop :=
  forall wd wd' v, m wd = (wd', Value v) -> Q v.

(** [m] only adds calls to the trace, none of which satisfies [P]. *)
Definition appends {A} (P : Call -> bool) (m : Cmd (World rng) A) : Prop :=
  forall wd, exists post,
    trace (fst (m wd)) = trace wd ++ post /\ existsb P post = false.

End CommandPredicates.


(** ** Shutdown *)

(** The calls only [SDL_AppQuit] makes. *)
Inductive ShutdownCall :=
  | SDL_ReleaseWindowFromGPUDevice (dev win : Handle)
  | SDL_DestroyWindow (win : Handle)
  | SDL_DestroyGPUDevice (dev : Handle)
  | Mix_FadeOutMusic (ms : Z)
  | Mix_FreeMusic (m : Handle)
  | Mix_CloseAudio
  | SDL_CloseAudioDevice (dev : Handle)
  | TTF_Quit
  | Mix_Quit
  | SDL_Quit.

(** [SDL_AppQuit] (main.cpp:517-537): the calls it makes, in order.
    [appstate] is [None] when [SDL_AppInit] returned before storing a
    context. *)
Definition SDL_AppQuit (appstate : option AppContext) (result : SDL_AppResult)
  : list (Call + ShutdownCall) :=
  match appstate with
  | Some app =>
      [inr (SDL_ReleaseWindowFromGPUDevice (device app) (window app));
       inr (SDL_DestroyWindow (window app));
       inr (SDL_DestroyGPUDevice (device app));
       inr (Mix_FadeOutMusic 1000);
       inr (Mix_FreeMusic (music app));
       inr Mix_CloseAudio;
       inr (SDL_CloseAudioDevice (audioDevice app))]
  | None => []
  end ++
  [inr TTF_Quit;
   inr Mix_Quit;
   inl (SDL_Log "Application quit successfully!" []);
   inr SDL_Quit].

(** ** More vocabulary *)

Section MoreVocabulary.
Context {rng : Type} `{RandomSource rng}.

(** The calls of [SDL_AppInit] whose result it tests, all succeeding. *)
Definition init_checks (env : InitEnv (rng := rng)) : bool :=
  SDL_Init_ok env && TTF_Init_ok env &&
  match SDL_CreateWindow env, SDL_GetBasePath env, SDL_CreateGPUDevice env with
  | Some _, Some basePath, Some _ =>
      SDL_ClaimWindowForGPUDevice env &&
      match LoadImage env basePath "ravioli_atlas.bmp",
            TTF_OpenFont env (path_append basePath "Inter-VariableFont.ttf"),
            SDL_OpenAudioDevice env,
            Mix_LoadMUS env (path_append basePath "the_entertainer.ogg") with
      | Some _, Some _, Some _, Some _ => Mix_OpenAudio env
      | _, _, _, _ => false
      end
  | _, _, _ => false
  end.

(** The width and height of the atlas image, when start-up gets as far
    as loading it: the six tested calls before it succeed, and so does
    [LoadImage]. *)
Definition atlas_size (env : InitEnv (rng := rng)) : option (Z * Z) :=
  if SDL_Init_ok env && TTF_Init_ok env then
    match SDL_CreateWindow env, SDL_GetBasePath env, SDL_CreateGPUDevice env with
    | Some _, Some basePath, Some _ =>
        if SDL_ClaimWindowForGPUDevice env then
          match LoadImage env basePath "ravioli_atlas.bmp" with
          | Some (_, image_w, image_h) => Some (image_w, image_h)
          | None => None
          end
        else None
    | _, _, _ => None
    end
  else None.

(** Start-up does not copy the atlas pixels through a [NULL] pointer or
    with a byte count that does not fit [int]. *)
Definition init_defined (env : InitEnv (rng := rng)) : bool :=
  match atlas_size env with
  | Some (image_w, image_h) =>
      texture_transfer_mapped env &&
      (0 <=? image_w * image_h) && (image_w * image_h * 4 <? 2 ^ 31)
  | None => true
  end.

(** The number of building frames among [envs]. *)
Definition building_frames (envs : list FrameEnv) : nat :=
  length (filter (fun env => builds env = true) envs).

End MoreVocabulary.

Definition is_srand (c : Call) : bool :=
  match c with SDL_srand _ => true | _ => false end.

Definition is_draw (c : Call) : bool :=
  match c with SDL_DrawGPUPrimitives _ _ => true | _ => false end.

Definition is_submit (c : Call) : bool :=
  match c with SDL_SubmitGPUCommandBuffer _ => true | _ => false end.

Definition is_highdpi_log (c : Call) : bool :=
  match c with
  | SDL_Log fmt _ => String.eqb fmt "This is a highdpi environment."
  | _ => false
  end.

Definition is_play_music (c : Call) : bool :=
  match c with Mix_PlayMusic _ _ => true | _ => false end.

Definition is_release_shader (c : Call) : bool :=
  match c with SDL_ReleaseGPUShader _ => true | _ => false end.

Section InitOutcome.
Context {rng : Type} `{RandomSource rng}.

(** What [SDL_AppInit] has done when it reaches its end: [post] are the
    calls it made, [wd'] the world it leaves, [app] the context. *)
Definition init_succeeded (env : InitEnv (rng := rng)) (wd' : World rng)
           (post : list Call) (app : AppContext) (res : SDL_AppResult) : Prop :=
  init_checks env = true /\
  res = SDL_APP_CONTINUE /\ app_quit app = SDL_APP_CONTINUE /\
  SDL_CreateWindow env = Some (window app) /\
  SDL_CreateGPUDevice env = Some (device app) /\
  SDL_OpenAudioDevice env = Some (audioDevice app) /\
  (exists basePath,
     SDL_GetBasePath env = Some basePath /\
     Mix_LoadMUS env (path_append basePath "the_entertainer.ogg") = Some (music app) /\
     filter (fun c => is_release_shader c = true) post =
       [SDL_ReleaseGPUShader (LoadShader env basePath "PullSpriteBatch.vert");
        SDL_ReleaseGPUShader (LoadShader env basePath "TexturedQuadColor.frag")]) /\
  rand_state wd' = seeded env 0 /\
  SpriteDataTransferBuffer wd' = fresh_transfer_memory env /\
  SpriteDataBuffer wd' = fresh_buffer_memory env /\
  existsb is_error_log post = false /\
  filter (fun c => is_srand c = true) post = [SDL_srand 0] /\
  filter (fun c => is_play_music c = true) post = [Mix_PlayMusic (music app) 0] /\
  last post = Some (SDL_Log "Application started successfully!" []) /\
  existsb is_highdpi_log post =
    negb (fst (SDL_GetWindowSize env) =? fst (SDL_GetWindowSizeInPixels env)).

(** What it has done when it returns early. *)
Definition init_failed (env : InitEnv (rng := rng)) (wd wd' : World rng)
           (post : list Call) (res : SDL_AppResult) : Prop :=
  init_checks env = false /\
  res = SDL_APP_FAILURE /\
  last post = Some (SDL_LogError "Error %s" [ArgStr (init_error env)]) /\
  length (filter (fun c => is_error_log c = true) post) = 1%nat /\
  existsb is_play_music post = false /\
  (filter (fun c => is_srand c = true) post = [] /\ rand_state wd' = rand_state wd \/
   filter (fun c => is_srand c = true) post = [SDL_srand 0] /\ rand_state wd' = seeded env 0).

(** What it has done when it runs into undefined behaviour. *)
Definition init_undefined (env : InitEnv (rng := rng)) (wd' : World rng)
           (post : list Call) : Prop :=
  init_defined env = false /\
  existsb is_error_log post = false /\
  existsb is_play_music post = false /\
  filter (fun c => is_srand c = true) post = [SDL_srand 0] /\
  rand_state wd' = seeded env 0 /\
  exists dev, SDL_CreateGPUDevice env = Some dev /\
              last post = Some (SDL_MapGPUTransferBuffer dev false).

End InitOutcome.

(** * Properties of the float operations *)

Ltac bool_cases :=
  repeat match goal with
         | |- context [?a <=? ?b] => destruct (Z.leb_spec a b)
         | |- context [?a =? ?b] => destruct (Z.eqb_spec a b)
         end;
  simpl; try reflexivity; try lia.

Lemma digits2_pos_bounds (p : positive) :
  2 ^ (Zpos (digits2_pos p) - 1) <= Zpos p < 2 ^ Zpos (digits2_pos p).
Proof.
  induction p as [p IH | p IH |]; simpl digits2_pos.
  - rewrite Pos2Z.inj_succ.
    replace (Z.succ (Zpos (digits2_pos p)) - 1) with (Z.succ (Zpos (digits2_pos p) - 1)) by lia.
    rewrite !Z.pow_succ_r by lia. lia.
  - rewrite Pos2Z.inj_succ.
    replace (Z.succ (Zpos (digits2_pos p)) - 1) with (Z.succ (Zpos (digits2_pos p) - 1)) by lia.
    rewrite !Z.pow_succ_r by lia. lia.
  - simpl. lia.
Qed.

Lemma iter_pos_nat {A} (f : A -> A) (p : positive) (x : A) :
  SpecFloat.iter_pos f p x = Nat.iter (Pos.to_nat p) f x.
Proof.
  revert x. induction p as [p IH | p IH |]; intros x; simpl SpecFloat.iter_pos.
  - rewrite !IH, Pos2Nat.inj_xI.
    replace (Datatypes.S (2 * Pos.to_nat p)) with (Pos.to_nat p + (Pos.to_nat p + 1))%nat by lia.
    rewrite !Nat.iter_add. simpl. reflexivity.
  - rewrite !IH, Pos2Nat.inj_xO.
    replace (2 * Pos.to_nat p)%nat with (Pos.to_nat p + Pos.to_nat p)%nat by lia.
    rewrite Nat.iter_add. reflexivity.
  - reflexivity.
Qed.

Lemma shr_1_nonneg m r s :
  0 <= m ->
  shr_1 (Build_shr_record m r s) = Build_shr_record (m / 2) (Z.odd m) (r || s).
Proof.
  intros Hm. destruct m as [| p | p]; [reflexivity | | lia].
  destruct p as [p | p |]; unfold shr_1.
  - f_equal. rewrite Pos2Z.inj_xI. apply Z.div_unique with 1; lia.
  - f_equal. rewrite Pos2Z.inj_xO. apply Z.div_unique with 0; lia.
  - reflexivity.
Qed.

Lemma shr_1_iter (n : Z) (k : nat) :
  0 <= n ->
  Nat.iter k shr_1 (Build_shr_record n false false) = shifted n k.
Proof.
  intros Hn. induction k as [| k IH].
  - simpl. unfold shifted. simpl Z.of_nat. rewrite Z.pow_0_r, Z.div_1_r, Z.mod_1_r.
    reflexivity.
  - simpl Nat.iter. rewrite IH. unfold shifted.
    rewrite Nat2Z.inj_succ, Z.pow_succ_r by lia.
    set (K := 2 ^ Z.of_nat k).
    assert (HK : 0 < K) by (apply Z.pow_pos_nonneg; lia).
    rewrite shr_1_nonneg by (apply Z.div_pos; lia).
    assert (Hdiv : n / (2 * K) = n / K / 2).
    { rewrite Z.div_div by lia. f_equal. lia. }
    assert (Hn1 := Z.div_mod n K ltac:(lia)).
    assert (Hr := Z.mod_pos_bound n K HK).
    assert (Hq := Z.div_mod (n / K) 2 ltac:(lia)).
    assert (Hq2 := Z.mod_pos_bound (n / K) 2 ltac:(lia)).
    assert (Hrem : n mod (2 * K) = (n / K mod 2) * K + n mod K).
    { symmetry. apply Z.mod_unique with (n / K / 2); nia. }
    rewrite Hdiv, Hrem, Zodd_mod.
    assert (E : n / K mod 2 = 0 \/ n / K mod 2 = 1) by lia.
    destruct E as [E | E]; rewrite E; f_equal; bool_cases.
Qed.

Lemma rne_spec (n : Z) (k : nat) :
  0 <= n ->
  let K := 2 ^ Z.of_nat k in
  exists c, rne n k = n / K + c /\
    ((c = 0 /\ 2 * (n mod K) <= K) \/
     (c = 1 /\ (K < 2 * (n mod K) \/ (2 * (n mod K) = K /\ Z.odd (n / K) = true)))).
Proof.
  intros Hn K. unfold rne, shifted. fold K.
  assert (HK : 0 < K) by (apply Z.pow_pos_nonneg; lia).
  assert (Hr := Z.mod_pos_bound n K HK).
  cbn [shr_m loc_of_shr_record].
  destruct (Z.leb_spec K (2 * (n mod K))) as [L | L];
    destruct (Z.eqb_spec (n mod K) 0) as [E | E];
    destruct (Z.eqb_spec (2 * (n mod K)) K) as [E' | E'];
    cbn [negb andb round_nearest_even]; try lia.
  - rewrite <- Z.negb_odd. destruct (Z.odd (n / K)) eqn:O; cbn [negb].
    + exists 1. split; [reflexivity |]. right. split; [reflexivity |]. right. done.
    + exists 0. split; [lia |]. left. lia.
  - exists 1. split; [reflexivity |]. right. split; [reflexivity |]. left. lia.
  - exists 0. split; [lia |]. left. lia.
  - exists 0. split; [lia |]. left. lia.
Qed.




Lemma Zdigits2_bounds (m : Z) :
  0 < m -> 2 ^ (Zdigits2 m - 1) <= m < 2 ^ Zdigits2 m.
Proof.
  destruct m as [| p | p]; try lia. intros _. apply digits2_pos_bounds.
Qed.

Lemma Zdigits2_pos (m : Z) : 0 < m -> 0 < Zdigits2 m.
Proof. destruct m; simpl; lia. Qed.

Lemma Zdigits2_le (m : Z) (j : Z) : 0 < m -> m < 2 ^ j -> Zdigits2 m <= j.
Proof.
  intros Hm Hlt. destruct (Zdigits2_bounds m Hm) as [Hlo _].
  destruct (Z.le_gt_cases (Zdigits2 m) j) as [|Hgt]; [done |].
  assert (2 ^ j <= 2 ^ (Zdigits2 m - 1)) by (apply Z.pow_le_mono_r; lia). lia.
Qed.

Lemma fexp32 (x : Z) : fexp 24 128 x = Z.max (x - 24) (-149).
Proof. reflexivity. Qed.

Lemma shr_fexp_exact (m e : Z) :
  0 <= m ->
  shr_fexp 24 128 m e loc_Exact =
    let k := fexp 24 128 (Zdigits2 m + e) - e in
    if 0 <? k then (shifted m (Z.to_nat k), e + k)
    else (Build_shr_record m false false, e).
Proof.
  intros Hm. unfold shr_fexp, shr. cbn [shr_record_of_loc].
  cbv zeta.
  destruct (fexp 24 128 (Zdigits2 m + e) - e) as [| p | p] eqn:E; try reflexivity.
  cbn [Z.ltb Z.compare]. rewrite iter_pos_nat, shr_1_iter by done.
  rewrite Z2Nat.inj_pos. reflexivity.
Qed.








Lemma mul_finite (sx sy : bool) (mx my : positive) (ex ey : Z) :
  F32.mul (S754_finite sx mx ex) (S754_finite sy my ey) =
  binary_round_aux 24 128 (xorb sx sy) (Zpos mx * Zpos my) (ex + ey) loc_Exact.
Proof. reflexivity. Qed.




(** ** The real value of a float *)


Lemma IZR_pow2 (k : Z) : 0 <= k -> IZR (2 ^ k) = powerRZ 2 k.
Proof.
  destruct k as [| p | p]; [reflexivity | | lia]. intros _.
  change (2 ^ Zpos p) with (Z.pow_pos 2 p). apply Zpower_pos_powerRZ.
Qed.



(** ** Exact operations *)

Lemma rne_exact (q : Z) (k : nat) : 0 <= q -> rne (q * 2 ^ Z.of_nat k) k = q.
Proof.
  intros Hq. set (K := 2 ^ Z.of_nat k).
  assert (HK : 0 < K) by (apply Z.pow_pos_nonneg; lia).
  destruct (rne_spec (q * K) k ltac:(nia)) as (c & -> & Hc). fold K in Hc |- *.
  rewrite Z.mod_mul, Z.div_mul in * by lia. lia.
Qed.

Lemma Zdigits2_unique (m d : Z) : 2 ^ (d - 1) <= m < 2 ^ d -> 0 < m -> Zdigits2 m = d.
Proof.
  intros Hm Hpos. assert (Hd := Zdigits2_bounds m Hpos).
  assert (Hd0 := Zdigits2_pos m Hpos).
  destruct (Z.lt_trichotomy (Zdigits2 m) d) as [L | [E | L]]; [| done |]; exfalso.
  - assert (2 ^ Zdigits2 m <= 2 ^ (d - 1)) by (apply Z.pow_le_mono_r; lia). lia.
  - assert (0 <= d).
    { destruct (Z.le_gt_cases 0 d); [done |]. rewrite (Z.pow_neg_r 2 d) in Hm; lia. }
    assert (2 ^ d <= 2 ^ (Zdigits2 m - 1)) by (apply Z.pow_le_mono_r; lia). lia.
Qed.

Lemma Zdigits2_shift (q k : Z) : 0 < q -> 0 <= k -> Zdigits2 (q * 2 ^ k) = Zdigits2 q + k.
Proof.
  intros Hq Hk. assert (Hd := Zdigits2_bounds q Hq). assert (Hd0 := Zdigits2_pos q Hq).
  assert (HK : 0 < 2 ^ k) by (apply Z.pow_pos_nonneg; lia).
  apply Zdigits2_unique; [| nia].
  replace (Zdigits2 q + k - 1) with ((Zdigits2 q - 1) + k) by lia.
  rewrite !Z.pow_add_r by lia. split.
  - apply Z.mul_le_mono_nonneg_r; lia.
  - apply Z.mul_lt_mono_pos_r; lia.
Qed.

(** A product whose low [k] bits are zero and whose remaining bits fit is
    not changed by rounding. *)
Lemma round_exact (s : bool) (q : positive) (k e : Z) :
  0 <= k ->
  Z.max 0 (fexp 24 128 (Zdigits2 (Zpos q) + k + e) - e) = k ->
  e + k <= 104 ->
  binary_round_aux 24 128 s (Zpos q * 2 ^ k) e loc_Exact = S754_finite s q (e + k).
Proof.
  intros Hk Hshift Hov. unfold binary_round_aux.
  assert (HK : 0 < 2 ^ k) by (apply Z.pow_pos_nonneg; lia).
  rewrite shr_fexp_exact by lia. cbv zeta.
  rewrite Zdigits2_shift by lia.
  assert (Hr1 : exists mrs,
    (if 0 <? fexp 24 128 (Zdigits2 (Zpos q) + k + e) - e
     then (shifted (Zpos q * 2 ^ k) (Z.to_nat (fexp 24 128 (Zdigits2 (Zpos q) + k + e) - e)),
           e + (fexp 24 128 (Zdigits2 (Zpos q) + k + e) - e))
     else ({| shr_m := Zpos q * 2 ^ k; shr_r := false; shr_s := false |}, e)) = (mrs, e + k) /\
    round_nearest_even (shr_m mrs) (loc_of_shr_record mrs) = Zpos q).
  { destruct (Z.ltb_spec 0 (fexp 24 128 (Zdigits2 (Zpos q) + k + e) - e)) as [L | L].
    - replace (fexp 24 128 (Zdigits2 (Zpos q) + k + e) - e) with k by lia.
      eexists. split; [reflexivity |].
      fold (rne (Zpos q * 2 ^ k) (Z.to_nat k)).
      rewrite <- (Z2Nat.id k) at 1 by lia. apply rne_exact. lia.
    - assert (k = 0) by lia. subst k.
      eexists. split; [f_equal; lia |]. simpl. lia. }
  destruct Hr1 as (mrs & -> & ->).
  rewrite shr_fexp_exact by lia. cbv zeta.
  replace (Zdigits2 (Zpos q) + (e + k)) with (Zdigits2 (Zpos q) + k + e) by lia.
  rewrite (proj2 (Z.ltb_ge 0 _)) by lia. cbn [shr_m].
  by rewrite (proj2 (Z.leb_le (e + k) (128 - 24))) by lia.
Qed.

Lemma Pos_iter_xO (p d : positive) : Zpos (Pos.iter xO p d) = Zpos p * 2 ^ Zpos d.
Proof.
  induction d as [| d IH] using Pos.peano_ind.
  - simpl. lia.
  - rewrite Pos.iter_succ, Pos2Z.inj_xO, IH, Pos2Z.inj_succ, Z.pow_succ_r by lia. lia.
Qed.

(** [(float) n] is exact for a positive [n] below [2^24]: the mantissa is
    [n] shifted to 24 bits. *)
Lemma of_Z_shape (n : Z) :
  0 < n < 2 ^ 24 ->
  exists m, F32.of_Z n = S754_finite false m (Zdigits2 n - 24) /\
            Zpos m = n * 2 ^ (24 - Zdigits2 n) /\ Zdigits2 (Zpos m) = 24.
Proof.
  intros Hn. destruct n as [| p | p]; try lia.
  assert (Hd := Zdigits2_le (Zpos p) 24 ltac:(lia) ltac:(lia)).
  assert (Hd0 := Zdigits2_pos (Zpos p) ltac:(lia)).
  unfold F32.of_Z, binary_normalize, binary_round, shl_align.
  change (Zpos (digits2_pos p)) with (Zdigits2 (Zpos p)).
  change (fexp F32.prec F32.emax) with (fexp 24 128). rewrite fexp32.
  set (d := Zdigits2 (Zpos p)) in *.
  destruct (Z.max (d + 0 - 24) (-149) - 0) as [| sh | sh] eqn:Esh; [| lia |].
  - assert (d = 24) by lia. exists p.
    change (binary_round_aux F32.prec F32.emax) with (binary_round_aux 24 128).
    rewrite <- (Z.mul_1_r (Zpos p)) at 1. change 1 with (2 ^ 0) at 1.
    rewrite round_exact; [| lia | rewrite fexp32; fold d; lia | lia].
    replace (d - 24) with 0 by lia. replace (24 - d) with 0 by lia.
    split; [done |]. split; [lia | fold d; lia].
  - exists (Pos.iter xO p sh).
    assert (Hm : Zpos (Pos.iter xO p sh) = Zpos p * 2 ^ (24 - d)).
    { rewrite Pos_iter_xO. f_equal. f_equal. lia. }
    assert (Hdm : Zdigits2 (Zpos (Pos.iter xO p sh)) = 24).
    { rewrite Hm, Zdigits2_shift by lia. fold d. lia. }
    change (binary_round_aux F32.prec F32.emax) with (binary_round_aux 24 128).
    rewrite <- (Z.mul_1_r (Zpos (Pos.iter xO p sh))) at 1. change 1 with (2 ^ 0) at 1.
    rewrite round_exact; [| lia | rewrite fexp32, Hdm; lia | lia].
    split; [f_equal; lia |]. split; [exact Hm | exact Hdm].
Qed.

Lemma of_Z_exact (n : Z) : 0 <= n < 2 ^ 24 -> F32.to_R (F32.of_Z n) = IZR n.
Proof.
  intros Hn. destruct (Z.eq_dec n 0) as [-> | Hnz]; [reflexivity |].
  destruct (of_Z_shape n ltac:(lia)) as (m & -> & Hm & _).
  assert (Hd := Zdigits2_le n 24 ltac:(lia) ltac:(lia)).
  cbn [F32.to_R cond_Zopp]. rewrite Hm, mult_IZR, IZR_pow2, Rmult_assoc by lia.
  rewrite <- powerRZ_add by lra.
  replace (24 - Zdigits2 n + (Zdigits2 n - 24)) with 0 by lia. simpl. lra.
Qed.

(** * The scripted generator is a random source *)

Lemma scripted_bits_range (s : list Z) : 0 <= fst (scripted_bits s) < 2 ^ 32.
Proof.
  destruct s as [| v s]; simpl fst; [lia |]. apply Z.mod_pos_bound. lia.
Qed.

Lemma scripted_rand_range (n : Z) (s : list Z) :
  0 < n -> 0 <= fst (scripted_rand n s) < n.
Proof.
  intros Hn. unfold scripted_rand.
  assert (Hv := scripted_bits_range s).
  destruct (scripted_bits s) as [v s']. simpl in Hv |- *.
  rewrite (proj2 (Z.ltb_ge n 0)) by lia. rewrite Z.shiftr_div_pow2 by lia.
  split.
  - apply Z.div_pos; nia.
  - apply Z.div_lt_upper_bound; nia.
Qed.

Lemma of_dyadic_2p24 : F32.of_dyadic 1 (-24) = S754_finite false 8388608 (-47).
Proof. reflexivity. Qed.

Lemma scripted_randf_range (s : list Z) :
  F32.in_unit_interval (fst (scripted_randf s)) = true.
Proof.
  unfold scripted_randf.
  assert (Hv := scripted_bits_range s).
  destruct (scripted_bits s) as [v s']. cbn [fst] in Hv |- *.
  rewrite Z.shiftr_div_pow2 by lia.
  assert (Hk : 0 <= v / 2 ^ 8 < 2 ^ 24).
  { split; [apply Z.div_pos; lia | apply Z.div_lt_upper_bound; lia]. }
  set (k := v / 2 ^ 8) in *. clearbody k.
  destruct (Z.eq_dec k 0) as [-> | Hnz]; [reflexivity |].
  destruct (of_Z_shape k ltac:(lia)) as (m & -> & Hm & Hdm).
  assert (Hd := Zdigits2_le k 24 ltac:(lia) ltac:(lia)).
  assert (Hd0 := Zdigits2_pos k ltac:(lia)).
  rewrite of_dyadic_2p24, mul_finite. cbn [xorb].
  change (Zpos 8388608) with (2 ^ 23).
  rewrite round_exact; [| lia | rewrite fexp32, Hdm; lia | lia].
  unfold F32.in_unit_interval, F32.leb, F32.ltb, SFleb, SFltb.
  cbn [valid_binary SFcompare F32.zero F32.one].
  unfold bounded, canonical_mantissa.
  change (Zpos (digits2_pos m)) with (Zdigits2 (Zpos m)).
  change (fexp F32.prec F32.emax) with (fexp 24 128). rewrite fexp32, Hdm.
  rewrite (proj2 (Z.eqb_eq _ _)) by lia.
  rewrite (proj2 (Z.leb_le _ _)) by (unfold F32.emax, F32.prec; lia).
  destruct (Z.compare_spec (Zdigits2 k - 24 + -47 + 23) (-23)); (reflexivity || lia).
Qed.

#[export] Instance scripted_source : RandomSource (list Z) := {|
  SDL_rand := scripted_rand;
  SDL_randf := scripted_randf;
  SDL_rand_range := scripted_rand_range;
  SDL_randf_range := scripted_randf_range
|}.

(** * The build loop *)

Section BuildLemmas.
Context {rng : Type} `{RandomSource rng}.

Lemma rng_at_succ (i : nat) (s : rng) : rng_at i (after_sprite s) = rng_at (S i) s.
Proof. unfold rng_at. by rewrite Nat.iter_succ_r. Qed.

(** What one run of the loop body stores, spelled out in the draws. *)
Lemma sprite_from_inv (s : rng) (old sp : SpriteInstance) :
  sprite_from s old = Some sp ->
  let s1 := snd (SDL_rand 4 s) in
  let s2 := snd (SDL_rand 640 s1) in
  let s3 := snd (SDL_rand 480 s2) in
  exists u v,
    0 <= fst (SDL_rand 4 s) < 4 /\
    uCoords !! Z.to_nat (fst (SDL_rand 4 s)) = Some u /\
    vCoords !! Z.to_nat (fst (SDL_rand 4 s)) = Some v /\
    sp = {| x := F32.of_Z (fst (SDL_rand 640 s1));
            y := F32.of_Z (fst (SDL_rand 480 s2));
            z := F32.of_Z 0;
            rotation := F32.mul (F32.mul (fst (SDL_randf s3)) SDL_PI_F) (F32.of_Z 2);
            w := F32.of_Z 32; h := F32.of_Z 32;
            padding_a := padding_a old; padding_b := padding_b old;
            tex_u := u; tex_v := v; tex_w := F32.half; tex_h := F32.half;
            r := F32.one; g := F32.one; b := F32.one; a := F32.one |}.
Proof.
  unfold sprite_from, write_sprite. intros Hsp. cbv zeta.
  assert (Hq := SDL_rand_range 4 s ltac:(lia)).
  destruct (SDL_rand 4 s) as [q s1]. cbn [fst snd] in *.
  destruct (SDL_rand 640 s1) as [rx s2]. cbn [fst snd] in *.
  destruct (SDL_rand 480 s2) as [ry s3]. cbn [fst snd] in *.
  destruct (SDL_randf s3) as [rf s4]. cbn [fst snd] in *.
  rewrite (proj2 (Z.ltb_ge q 0)) in Hsp by lia.
  destruct (uCoords !! Z.to_nat q) as [u |] eqn:Eu; [| discriminate].
  destruct (vCoords !! Z.to_nat q) as [v |] eqn:Ev; [| discriminate].
  simpl in Hsp. injection Hsp as <-. by exists u, v.
Qed.

Lemma write_sprite_slot (i : nat) (s : rng) (data : list SpriteInstance)
      (old : SpriteInstance) :
  data !! i = Some old ->
  exists sp, sprite_from s old = Some sp /\
             write_sprite i (s, data) = Some (after_sprite s, <[i := sp]> data).
Proof.
  intros Hold. unfold sprite_from, write_sprite, after_sprite.
  assert (Hq := SDL_rand_range 4 s ltac:(lia)).
  destruct (SDL_rand 4 s) as [q s1]. cbn [fst snd] in *.
  destruct (SDL_rand 640 s1) as [rx s2]. cbn [fst snd] in *.
  destruct (SDL_rand 480 s2) as [ry s3]. cbn [fst snd] in *.
  destruct (SDL_randf s3) as [rf s4]. cbn [fst snd] in *.
  rewrite Hold, (proj2 (Z.ltb_ge q 0)) by lia.
  assert (Hcases : q = 0 \/ q = 1 \/ q = 2 \/ q = 3) by lia.
  destruct Hcases as [-> | [-> | [-> | ->]]]; simpl; eexists; split; reflexivity.
Qed.

(** The loop: it ends, it advances the generator by one sprite per
    iteration, and it changes exactly the slots it runs over. *)
Lemma for_sprites_spec (n : nat) :
  forall (i : nat) (s : rng) (mem : list SpriteInstance),
    (i + n <= length mem)%nat ->
    exists data,
      for_sprites n i (s, mem) = Some (rng_at n s, data) /\
      length data = length mem /\
      (forall j, (j < i \/ i + n <= j)%nat -> data !! j = mem !! j) /\
      (forall j, (i <= j < i + n)%nat ->
         exists old sp, mem !! j = Some old /\
                        sprite_from (rng_at (j - i) s) old = Some sp /\
                        data !! j = Some sp).
Proof.
  induction n as [| n IH]; intros i s mem Hlen.
  - exists mem. split; [reflexivity |]. split; [done |]. split; [done |]. lia.
  - destruct (lookup_lt_is_Some_2 mem i ltac:(lia)) as [old Hold].
    destruct (write_sprite_slot i s mem old Hold) as (sp & Hsp & Hw).
    cbn [for_sprites]. rewrite Hw. cbn [mbind option_bind].
    destruct (IH (S i) (after_sprite s) (<[i := sp]> mem)) as (data & Hrun & Hl & Hout & Hin).
    { rewrite length_insert. lia. }
    exists data. rewrite Hrun, rng_at_succ. split; [reflexivity |].
    rewrite length_insert in Hl. split; [exact Hl |]. split.
    + intros j Hj. rewrite Hout by lia. apply list_lookup_insert_ne. lia.
    + intros j Hj. destruct (decide (j = i)) as [-> | Hne].
      * exists old, sp. rewrite Nat.sub_diag. split; [done |]. split; [done |].
        rewrite Hout by lia. apply list_lookup_insert_eq. lia.
      * destruct (Hin j ltac:(lia)) as (old' & sp' & Hold' & Hsp' & Hd).
        exists old', sp'. rewrite list_lookup_insert_ne in Hold' by lia.
        split; [done |]. split; [| done].
        rewrite rng_at_succ in Hsp'. by replace (j - i)%nat with (S (j - S i)) by lia.
Qed.

Lemma build_sprites_spec (s : rng) (mem : list SpriteInstance) :
  (SPRITE_COUNT <= length mem)%nat ->
  exists data,
    build_sprites s mem = Some (rng_at SPRITE_COUNT s, data) /\
    length data = length mem /\
    (forall j, (SPRITE_COUNT <= j)%nat -> data !! j = mem !! j) /\
    (forall j, (j < SPRITE_COUNT)%nat ->
       exists old sp, mem !! j = Some old /\
                      sprite_from (rng_at j s) old = Some sp /\
                      data !! j = Some sp).
Proof.
  intros Hlen. unfold build_sprites.
  destruct (for_sprites_spec SPRITE_COUNT 0 s mem ltac:(lia)) as (data & Hrun & Hl & Hout & Hin).
  exists data. split; [done |]. split; [done |]. split.
  - intros j Hj. apply Hout. lia.
  - intros j Hj. destruct (Hin j ltac:(lia)) as (old & sp & ? & Hsp & ?).
    rewrite Nat.sub_0_r in Hsp. by exists old, sp.
Qed.

(** Too little mapped memory: the loop writes out of bounds. *)
Lemma build_sprites_short (s : rng) (mem : list SpriteInstance) :
  (length mem < SPRITE_COUNT)%nat -> build_sprites s mem = None.
Proof.
  intros Hlen. unfold build_sprites.
  destruct (for_sprites_spec (length mem) 0 s mem ltac:(lia)) as (data & Hrun & Hl & _).
  replace SPRITE_COUNT with (length mem + S (SPRITE_COUNT - length mem - 1))%nat by lia.
  generalize (SPRITE_COUNT - length mem - 1)%nat as k. intros k.
  assert (Hgen : forall n i st st',
    for_sprites n i st = Some st' ->
    forall m, for_sprites (n + m) i st = for_sprites m (i + n) st').
  { induction n as [| n IHn]; intros i st st' Hst m.
    - injection Hst as <-. by rewrite Nat.add_0_r.
    - cbn [for_sprites Nat.add] in *. destruct (write_sprite i st) as [st1 |]; [| done].
      cbn [mbind option_bind] in *. rewrite (IHn _ _ _ Hst). f_equal. lia. }
  rewrite (Hgen _ _ _ _ Hrun). cbn [for_sprites Nat.add].
  unfold write_sprite.
  destruct (SDL_rand 4 _) as [q s1], (SDL_rand 640 s1) as [rx s2],
           (SDL_rand 480 s2) as [ry s3], (SDL_randf s3) as [rf s4].
  by rewrite (lookup_ge_None_2 data) by lia.
Qed.

End BuildLemmas.

(** * One frame *)

Section FrameLemmas.
Context {rng : Type} `{RandomSource rng}.

Lemma builds_inv (env : FrameEnv) :
  builds env = true ->
  exists cmdBuf tex,
    acquired_command_buffer env = Some cmdBuf /\
    swapchain_acquired env = true /\
    swapchainTexture env = Some tex.
Proof.
  unfold builds. destruct (acquired_command_buffer env) as [c |]; [| done].
  destruct (swapchainTexture env) as [t |]; [| done]. intros ->. by exists c, t.
Qed.

(** A frame that reaches the build step and has enough mapped memory. *)
Lemma iterate_builds (app : AppContext) (env : FrameEnv) (wd : World rng)
      (cmdBuf tex : Handle) (s' : rng) (data : list SpriteInstance) :
  acquired_command_buffer env = Some cmdBuf ->
  swapchain_acquired env = true ->
  swapchainTexture env = Some tex ->
  build_sprites (rand_state wd) (mapped_memory env) = Some (s', data) ->
  run (SDL_AppIterate app env) wd =
    ({| rand_state := s';
        SpriteDataTransferBuffer := data;
        SpriteDataBuffer := take SPRITE_COUNT data;
        trace := trace wd ++ frame_calls app cmdBuf tex |}, Some (app_quit app)).
Proof.
  intros Hc Hs Ht Hb. destruct wd as [s0 transfer0 buffer0 trace0].
  cbn [rand_state] in Hb.
  unfold run, SDL_AppIterate. rewrite Hc, Hs, Ht. cbn [negb].
  cbv beta iota delta [build_transfer upload_instances render_sprites bind call ret
                       rand_state SpriteDataTransferBuffer SpriteDataBuffer trace].
  rewrite Hb.
  cbv beta iota delta [rand_state SpriteDataTransferBuffer SpriteDataBuffer trace].
  unfold frame_calls. rewrite <- !app_assoc. reflexivity.
Qed.

(** The same frame with too little mapped memory runs into undefined
    behaviour. *)
Lemma iterate_undefined (app : AppContext) (env : FrameEnv) (wd : World rng) :
  builds env = true ->
  (length (mapped_memory env) < SPRITE_COUNT)%nat ->
  snd (run (SDL_AppIterate app env) wd) = None.
Proof.
  intros Hb Hlen. destruct (builds_inv env Hb) as (c & t & Hc & Hs & Ht).
  destruct wd as [s0 transfer0 buffer0 trace0].
  unfold run, SDL_AppIterate. rewrite Hc, Hs, Ht. cbn [negb].
  cbv beta iota delta [build_transfer bind call
                       rand_state SpriteDataTransferBuffer SpriteDataBuffer trace].
  rewrite build_sprites_short by exact Hlen. reflexivity.
Qed.

(** The sprite array a building frame leaves in the transfer buffer. *)
Lemma frame_sprites (app : AppContext) (env : FrameEnv) (wd : World rng) :
  builds env = true ->
  (SPRITE_COUNT <= length (mapped_memory env))%nat ->
  exists wd',
    run (SDL_AppIterate app env) wd = (wd', Some (app_quit app)) /\
    rand_state wd' = rng_at SPRITE_COUNT (rand_state wd) /\
    length (SpriteDataTransferBuffer wd') = length (mapped_memory env) /\
    (forall j, (SPRITE_COUNT <= j)%nat ->
       SpriteDataTransferBuffer wd' !! j = mapped_memory env !! j) /\
    (forall j, (j < SPRITE_COUNT)%nat ->
       exists old sp,
         mapped_memory env !! j = Some old /\
         sprite_from (rng_at j (rand_state wd)) old = Some sp /\
         SpriteDataTransferBuffer wd' !! j = Some sp).
Proof.
  intros Hb Hlen. destruct (builds_inv env Hb) as (c & t & Hc & Hs & Ht).
  destruct (build_sprites_spec (rand_state wd) (mapped_memory env) Hlen)
    as (data & Hrun & Hl & Hout & Hin).
  eexists. split; [by apply (iterate_builds app env wd c t (rng_at SPRITE_COUNT (rand_state wd)) data) |].
  cbn [rand_state SpriteDataTransferBuffer]. done.
Qed.

(** A record of a building frame, seen from the slot. *)
Lemma frame_slot (app : AppContext) (env : FrameEnv) (wd : World rng)
      (j : nat) (sp : SpriteInstance) :
  builds env = true ->
  (SPRITE_COUNT <= length (mapped_memory env))%nat ->
  (j < SPRITE_COUNT)%nat ->
  SpriteDataTransferBuffer (fst (run (SDL_AppIterate app env) wd)) !! j = Some sp ->
  exists old, mapped_memory env !! j = Some old /\
              sprite_from (rng_at j (rand_state wd)) old = Some sp.
Proof.
  intros Hb Hlen Hj Hsp.
  destruct (frame_sprites app env wd Hb Hlen) as (wd' & Hrun & _ & _ & _ & Hin).
  rewrite Hrun in Hsp. cbn [fst] in Hsp.
  destruct (Hin j Hj) as (old & sp' & Hold & Hfrom & Hd).
  exists old. split; [done |]. congruence.
Qed.

(** The same record, spelled out in the draws of its iteration. *)
Lemma frame_record (app : AppContext) (env : FrameEnv) (wd : World rng) (j : nat) :
  builds env = true ->
  (SPRITE_COUNT <= length (mapped_memory env))%nat ->
  (j < SPRITE_COUNT)%nat ->
  let s0 := rng_at j (rand_state wd) in
  let s1 := snd (SDL_rand 4 s0) in
  let s2 := snd (SDL_rand 640 s1) in
  let s3 := snd (SDL_rand 480 s2) in
  exists old sp u v,
    mapped_memory env !! j = Some old /\
    sprite_from s0 old = Some sp /\
    SpriteDataTransferBuffer (fst (run (SDL_AppIterate app env) wd)) !! j = Some sp /\
    uCoords !! Z.to_nat (fst (SDL_rand 4 s0)) = Some u /\
    vCoords !! Z.to_nat (fst (SDL_rand 4 s0)) = Some v /\
    sp = {| x := F32.of_Z (fst (SDL_rand 640 s1));
            y := F32.of_Z (fst (SDL_rand 480 s2));
            z := F32.of_Z 0;
            rotation := F32.mul (F32.mul (fst (SDL_randf s3)) SDL_PI_F) (F32.of_Z 2);
            w := F32.of_Z 32; h := F32.of_Z 32;
            padding_a := padding_a old; padding_b := padding_b old;
            tex_u := u; tex_v := v; tex_w := F32.half; tex_h := F32.half;
            r := F32.one; g := F32.one; b := F32.one; a := F32.one |}.
Proof.
  intros Hb Hlen Hj s0 s1 s2 s3.
  destruct (frame_sprites app env wd Hb Hlen) as (wd' & Hrun & _ & _ & _ & Hin).
  destruct (Hin j Hj) as (old & sp & Hold & Hfrom & Hsp).
  destruct (sprite_from_inv _ _ _ Hfrom) as (u & v & _ & Hu & Hv & Hrec).
  exists old, sp, u, v. rewrite Hrun. cbn [fst].
  split; [exact Hold |]. split; [exact Hfrom |]. split; [exact Hsp |].
  split; [exact Hu |]. split; [exact Hv | exact Hrec].
Qed.

End FrameLemmas.

(** * The sprite array of a frame *)

Lemma to_R_half : F32.to_R F32.half = (1 / 2)%R.
Proof. unfold F32.half, F32.to_R. simpl. lra. Qed.

Lemma to_R_one : F32.to_R F32.one = 1%R.
Proof. change F32.one with (F32.of_Z 1). rewrite of_Z_exact; [done | lia]. Qed.

Lemma memory_of_length (f : float) : length (memory_of f) = SPRITE_COUNT.
Proof. apply length_replicate. Qed.

Lemma memory_of_lookup (f : float) (j : nat) :
  (j < SPRITE_COUNT)%nat -> memory_of f !! j = Some (sprite_of f).
Proof. intros Hj. by apply lookup_replicate_2. Qed.

Lemma SPRITE_COUNT_value : Z.of_nat SPRITE_COUNT = 8192.
Proof. reflexivity. Qed.

Lemma slot_in_range (j : nat) : (Z.of_nat j <? 8192) = true -> (j < SPRITE_COUNT)%nat.
Proof. intros Hj. apply Z.ltb_lt in Hj. unfold SPRITE_COUNT. lia. Qed.

(** C1: in every frame in which the build step runs, the loop writes a
    record into each of the [SPRITE_COUNT = 8192] slots of the mapped sprite
    array, and into no other slot.  The array keeps its length; slot [j]
    below [SPRITE_COUNT] holds the record the loop body stores in its
    iteration [j]: the position and the rotation from the draws of that
    iteration, the fixed depth, size, UV extent and colour, the UV origin
    the first draw selects, and in the two padding fields what the mapped
    memory held; memory past the array is untouched. *)
Theorem build_writes_every_slot {rng : Type} `{RandomSource rng}
        (app : AppContext) (env : FrameEnv) (wd : World rng) :
  builds env = true ->
  (SPRITE_COUNT <= length (mapped_memory env))%nat ->
  let wd' := fst (run (SDL_AppIterate app env) wd) in
  Z.of_nat SPRITE_COUNT = 8192 /\
  length (SpriteDataTransferBuffer wd') = length (mapped_memory env) /\
  (forall j, (j < SPRITE_COUNT)%nat ->
     let s0 := rng_at j (rand_state wd) in
     let s1 := snd (SDL_rand 4 s0) in
     let s2 := snd (SDL_rand 640 s1) in
     let s3 := snd (SDL_rand 480 s2) in
     exists old sp u v,
       mapped_memory env !! j = Some old /\
       sprite_from s0 old = Some sp /\
       SpriteDataTransferBuffer wd' !! j = Some sp /\
       uCoords !! Z.to_nat (fst (SDL_rand 4 s0)) = Some u /\
       vCoords !! Z.to_nat (fst (SDL_rand 4 s0)) = Some v /\
       sp = {| x := F32.of_Z (fst (SDL_rand 640 s1));
               y := F32.of_Z (fst (SDL_rand 480 s2));
               z := F32.of_Z 0;
               rotation := F32.mul (F32.mul (fst (SDL_randf s3)) SDL_PI_F) (F32.of_Z 2);
               w := F32.of_Z 32; h := F32.of_Z 32;
               padding_a := padding_a old; padding_b := padding_b old;
               tex_u := u; tex_v := v; tex_w := F32.half; tex_h := F32.half;
               r := F32.one; g := F32.one; b := F32.one; a := F32.one |}) /\
  (forall j, (SPRITE_COUNT <= j)%nat ->
     SpriteDataTransferBuffer wd' !! j = mapped_memory env !! j).
Proof.
  intros Hb Hlen wd'.
  destruct (frame_sprites app env wd Hb Hlen) as (wd1 & Hrun & _ & Hl & Hout & _).
  split; [exact SPRITE_COUNT_value |]. split; [| split].
  - subst wd'. rewrite Hrun. exact Hl.
  - intros j Hj. exact (frame_record app env wd j Hb Hlen Hj).
  - subst wd'. rewrite Hrun. exact Hout.
Qed.

Lemma build_writes_every_slot_witness :
  let env := frame_of (640, 480) F32.half in
  let wd' := fst (run (SDL_AppIterate app0 env) (world_of [0; 3355443200])) in
  builds env = true /\
  length (SpriteDataTransferBuffer wd') = length (mapped_memory env) /\
  (forall j, (j < SPRITE_COUNT)%nat -> is_Some (SpriteDataTransferBuffer wd' !! j)) /\
  exists sp,
    SpriteDataTransferBuffer wd' !! 0%nat = Some sp /\
    x sp = F32.of_Z 500 /\ w sp = F32.of_Z 32 /\ padding_a sp = F32.half.
Proof.
  intros env wd'.
  destruct (build_writes_every_slot app0 env (world_of [0; 3355443200]))
    as (_ & Hl & Hin & _).
  - reflexivity.
  - cbn [env frame_of mapped_memory]. rewrite memory_of_length. apply Nat.le_refl.
  - split; [reflexivity |]. split; [exact Hl |]. split.
    + intros j Hj. destruct (Hin j Hj) as (old & sp & u & v & _ & _ & Hsp & _).
      exists sp. exact Hsp.
    + destruct (Hin 0%nat (slot_in_range 0 eq_refl))
        as (old & sp & u & v & Hold & _ & Hsp & _ & _ & Hrec).
      cbn [env frame_of mapped_memory] in Hold.
      rewrite memory_of_lookup in Hold by (apply slot_in_range; reflexivity).
      injection Hold as <-.
      exists sp. split; [exact Hsp |]. rewrite Hrec. cbn [x w padding_a sprite_of].
      split; [| split; reflexivity].
      assert (Hdraw : fst (SDL_rand 640 (snd (SDL_rand 4
                        (rng_at 0 (rand_state (world_of [0; 3355443200])))))) = 500)
        by reflexivity.
      rewrite Hdraw. reflexivity.
Defined.

(** C2: in the sprite array of a frame every record has its UV origin at
    one of the four quadrant origins (0,0), (0.5,0), (0,0.5), (0.5,0.5) of
    the 2x2 atlas, the one the draw [SDL_rand(4)] of its iteration selects
    from the tables [uCoords] and [vCoords], and its UV extent is
    (0.5, 0.5).  The four origins are distinct. *)
Theorem uv_is_a_quadrant {rng : Type} `{RandomSource rng}
        (app : AppContext) (env : FrameEnv) (wd : World rng)
        (j : nat) (sp : SpriteInstance) :
  builds env = true ->
  (SPRITE_COUNT <= length (mapped_memory env))%nat ->
  (j < SPRITE_COUNT)%nat ->
  SpriteDataTransferBuffer (fst (run (SDL_AppIterate app env) wd)) !! j = Some sp ->
  let ravioli := fst (SDL_rand 4 (rng_at j (rand_state wd))) in
  0 <= ravioli < 4 /\
  zip uCoords vCoords !! Z.to_nat ravioli = Some (tex_u sp, tex_v sp) /\
  (tex_u sp, tex_v sp) ∈
    [(F32.zero, F32.zero); (F32.half, F32.zero);
     (F32.zero, F32.half); (F32.half, F32.half)] /\
  NoDup (zip uCoords vCoords) /\
  tex_w sp = F32.half /\ tex_h sp = F32.half /\
  F32.to_R F32.zero = 0%R /\ F32.to_R F32.half = (1 / 2)%R.
Proof.
  intros Hb Hlen Hj Hsp ravioli.
  destruct (frame_slot app env wd j sp Hb Hlen Hj Hsp) as (old & _ & Hfrom).
  destruct (sprite_from_inv _ _ _ Hfrom) as (u & v & Hq & Hu & Hv & ->).
  cbn [tex_u tex_v tex_w tex_h]. fold ravioli in Hq, Hu, Hv.
  assert (Hzip : zip uCoords vCoords !! Z.to_nat ravioli = Some (u, v)).
  { rewrite lookup_zip_with, Hu. cbn [mbind option_bind]. by rewrite Hv. }
  split; [exact Hq |]. split; [exact Hzip |]. split.
  - apply list_elem_of_lookup_2 in Hzip. exact Hzip.
  - split; [| by rewrite to_R_half].
    unfold uCoords, vCoords. cbn [zip zip_with].
    repeat (apply NoDup_cons_2;
            [rewrite ?not_elem_of_cons; repeat split;
             try discriminate; apply not_elem_of_nil |]).
    apply NoDup_nil_2.
Qed.

Lemma uv_is_a_quadrant_witness :
  let env := frame_of (640, 480) F32.zero in
  let wd := world_of [3221225472] in
  exists sp,
    SpriteDataTransferBuffer (fst (run (SDL_AppIterate app0 env) wd)) !! 0%nat = Some sp /\
    (tex_u sp, tex_v sp) = (F32.half, F32.half) /\
    tex_w sp = F32.half /\ tex_h sp = F32.half.
Proof.
  intros env wd.
  assert (Hlen : (SPRITE_COUNT <= length (mapped_memory env))%nat).
  { cbn [env frame_of mapped_memory]. rewrite memory_of_length. apply Nat.le_refl. }
  destruct (frame_sprites app0 env wd eq_refl Hlen) as (wd' & Hrun & _ & _ & _ & Hslot).
  destruct (Hslot 0%nat (slot_in_range 0 eq_refl)) as (old & sp & Hold & Hfrom & Hsp).
  exists sp. rewrite Hrun. cbn [fst]. split; [exact Hsp |].
  destruct (uv_is_a_quadrant app0 env wd 0 sp eq_refl Hlen (slot_in_range 0 eq_refl))
    as (_ & Hzip & _ & _ & Hw & Hh & _).
  { rewrite Hrun. exact Hsp. }
  split; [| split; [exact Hw | exact Hh]].
  assert (Hdraw : zip uCoords vCoords
                    !! Z.to_nat (fst (SDL_rand 4 (rng_at 0 (rand_state wd)))) =
                  Some (F32.half, F32.half)) by (vm_compute; reflexivity).
  cbv zeta in Hzip. rewrite Hdraw in Hzip. injection Hzip as <- <-. reflexivity.
Defined.




(** C4: in the sprite array of a frame every record has depth [z = 0],
    size [w = h = 32] and colour [(r, g, b, a) = (1, 1, 1, 1)]. *)
Theorem depth_size_colour_fixed {rng : Type} `{RandomSource rng}
        (app : AppContext) (env : FrameEnv) (wd : World rng)
        (j : nat) (sp : SpriteInstance) :
  builds env = true ->
  (SPRITE_COUNT <= length (mapped_memory env))%nat ->
  (j < SPRITE_COUNT)%nat ->
  SpriteDataTransferBuffer (fst (run (SDL_AppIterate app env) wd)) !! j = Some sp ->
  (z sp = F32.zero /\ w sp = F32.of_Z 32 /\ h sp = F32.of_Z 32 /\
   r sp = F32.one /\ g sp = F32.one /\ b sp = F32.one /\ a sp = F32.one) /\
  (F32.to_R (z sp) = 0 /\ F32.to_R (w sp) = 32 /\ F32.to_R (h sp) = 32 /\
   F32.to_R (r sp) = 1 /\ F32.to_R (g sp) = 1 /\
   F32.to_R (b sp) = 1 /\ F32.to_R (a sp) = 1)%R.
Proof.
  intros Hb Hlen Hj Hsp.
  destruct (frame_slot app env wd j sp Hb Hlen Hj Hsp) as (old & _ & Hfrom).
  destruct (sprite_from_inv _ _ _ Hfrom) as (u & v & _ & _ & _ & ->).
  cbn [z w h r g b a]. split; [done |].
  rewrite to_R_one, !of_Z_exact by lia. done.
Qed.

Lemma depth_size_colour_fixed_witness :
  let env := frame_of (640, 480) F32.half in
  let wd := world_of [] in
  exists sp,
    SpriteDataTransferBuffer (fst (run (SDL_AppIterate app0 env) wd)) !! 5%nat = Some sp /\
    z sp = F32.zero /\ w sp = F32.of_Z 32 /\ h sp = F32.of_Z 32 /\
    r sp = F32.one /\ g sp = F32.one /\ b sp = F32.one /\ a sp = F32.one.
Proof.
  intros env wd.
  assert (Hlen : (SPRITE_COUNT <= length (mapped_memory env))%nat).
  { cbn [env frame_of mapped_memory]. rewrite memory_of_length. apply Nat.le_refl. }
  destruct (frame_sprites app0 env wd eq_refl Hlen) as (wd' & Hrun & _ & _ & _ & Hslot).
  destruct (Hslot 5%nat (slot_in_range 5 eq_refl)) as (old & sp & _ & _ & Hsp).
  exists sp. rewrite Hrun. cbn [fst]. split; [exact Hsp |].
  destruct (depth_size_colour_fixed app0 env wd 5 sp eq_refl Hlen
              (slot_in_range 5 eq_refl)) as (Hfields & _).
  { rewrite Hrun. exact Hsp. }
  exact Hfields.
Defined.

(** * What the array depends on *)

Section Dependence.
Context {rng : Type} `{RandomSource rng}.

Lemma same_draws_eq : same_draws (@eq rng).
Proof. intros s1 s2 ->. done. Qed.

Lemma after_sprite_related (R : rng -> rng -> Prop) (s1 s2 : rng) :
  same_draws R -> R s1 s2 -> R (after_sprite s1) (after_sprite s2).
Proof.
  intros HR H0. unfold after_sprite.
  apply HR. apply HR. apply HR. by apply HR.
Qed.

Lemma rng_at_related (R : rng -> rng -> Prop) (j : nat) (s1 s2 : rng) :
  same_draws R -> R s1 s2 -> R (rng_at j s1) (rng_at j s2).
Proof.
  intros HR H0. induction j as [| j IH]; [done |].
  change (R (after_sprite (rng_at j s1)) (after_sprite (rng_at j s2))).
  by apply after_sprite_related.
Qed.

(** The fields the loop body assigns are a function of the draws, and
    the two padding fields are what the slot held. *)
Lemma sprite_from_agree (R : rng -> rng -> Prop) (s1 s2 : rng)
      (old1 old2 sp1 sp2 : SpriteInstance) :
  same_draws R -> R s1 s2 ->
  sprite_from s1 old1 = Some sp1 -> sprite_from s2 old2 = Some sp2 ->
  written sp1 = written sp2 /\
  padding_a sp1 = padding_a old1 /\ padding_b sp1 = padding_b old1 /\
  padding_a sp2 = padding_a old2 /\ padding_b sp2 = padding_b old2 /\
  (old1 = old2 -> sp1 = sp2).
Proof.
  intros HR H0 Hsp1 Hsp2.
  destruct (sprite_from_inv _ _ _ Hsp1) as (u1 & v1 & _ & Hu1 & Hv1 & ->).
  destruct (sprite_from_inv _ _ _ Hsp2) as (u2 & v2 & _ & Hu2 & Hv2 & ->).
  destruct (HR _ _ H0) as [Hr4 _]. destruct (Hr4 4) as [Eq4 R1].
  destruct (HR _ _ R1) as [Hr640 _]. destruct (Hr640 640) as [Ex R2].
  destruct (HR _ _ R2) as [Hr480 _]. destruct (Hr480 480) as [Ey R3].
  destruct (HR _ _ R3) as [_ [Ef _]].
  rewrite Eq4 in Hu1, Hv1.
  assert (u1 = u2) by congruence. assert (v1 = v2) by congruence. subst u2 v2.
  unfold written. cbn [x y z rotation w h tex_u tex_v tex_w tex_h r g b a
                       padding_a padding_b].
  rewrite Ex, Ey, Ef. repeat split; try done. by intros ->.
Qed.

(** A frame that does not reach the build step leaves the generator and
    both sprite buffers alone. *)
Lemma iterate_skips (app : AppContext) (env : FrameEnv) (wd : World rng) :
  builds env = false ->
  let wd' := fst (run (SDL_AppIterate app env) wd) in
  rand_state wd' = rand_state wd /\
  SpriteDataTransferBuffer wd' = SpriteDataTransferBuffer wd /\
  SpriteDataBuffer wd' = SpriteDataBuffer wd.
Proof.
  unfold builds, run, SDL_AppIterate.
  destruct (acquired_command_buffer env) as [c |]; [| done].
  destruct (swapchain_acquired env); [| done].
  destruct (swapchainTexture env) as [t |]; done.
Qed.

(** Two frames run on generators that yield the same draws. *)
Lemma frames_agree (R : rng -> rng -> Prop) (app1 app2 : AppContext)
      (e1 e2 : FrameEnv) (w1 w2 : World rng) :
  same_draws R -> R (rand_state w1) (rand_state w2) -> same_course e1 e2 ->
  let w1' := fst (run (SDL_AppIterate app1 e1) w1) in
  let w2' := fst (run (SDL_AppIterate app2 e2) w2) in
  R (rand_state w1') (rand_state w2') /\
  (builds e1 = true ->
   forall j, (j < SPRITE_COUNT)%nat ->
     exists old1 old2 sp1 sp2,
       mapped_memory e1 !! j = Some old1 /\ mapped_memory e2 !! j = Some old2 /\
       SpriteDataTransferBuffer w1' !! j = Some sp1 /\
       SpriteDataTransferBuffer w2' !! j = Some sp2 /\
       written sp1 = written sp2 /\
       padding_a sp1 = padding_a old1 /\ padding_b sp1 = padding_b old1 /\
       padding_a sp2 = padding_a old2 /\ padding_b sp2 = padding_b old2 /\
       (old1 = old2 -> sp1 = sp2)).
Proof.
  intros HR H0 (Hb & Hl1 & Hl2) w1' w2'. subst w1' w2'.
  destruct (builds e1) eqn:Hb1; symmetry in Hb.
  - destruct (frame_sprites app1 e1 w1 Hb1 Hl1) as (w1' & -> & Hs1 & _ & _ & Hin1).
    destruct (frame_sprites app2 e2 w2 Hb Hl2) as (w2' & -> & Hs2 & _ & _ & Hin2).
    cbn [fst]. rewrite Hs1, Hs2. split; [by apply rng_at_related |].
    intros _ j Hj.
    destruct (Hin1 j Hj) as (old1 & sp1 & Ho1 & Hf1 & Hd1).
    destruct (Hin2 j Hj) as (old2 & sp2 & Ho2 & Hf2 & Hd2).
    exists old1, old2, sp1, sp2. do 4 (split; [done |]).
    eapply sprite_from_agree; [exact HR | | exact Hf1 | exact Hf2].
    by apply rng_at_related.
  - destruct (iterate_skips app1 e1 w1 Hb1) as (-> & _).
    destruct (iterate_skips app2 e2 w2 Hb) as (-> & _).
    split; [done | discriminate].
Qed.

End Dependence.

Lemma frame_of_course (size1 size2 : Z * Z) (f1 f2 : float) :
  same_course (frame_of size1 f1) (frame_of size2 f2).
Proof.
  split; [reflexivity |]. cbn [frame_of mapped_memory]. by rewrite !memory_of_length.
Qed.

(** The padding of the first record after a frame on mapped memory filled
    with [f]. *)
Lemma frame_of_padding (script : list Z) (f : float) :
  exists sp,
    SpriteDataTransferBuffer
      (fst (run (SDL_AppIterate app0 (frame_of (640, 480) f)) (world_of script)))
      !! 0%nat = Some sp /\
    padding_a sp = f /\ padding_b sp = f.
Proof.
  destruct (frames_agree eq app0 app0 (frame_of (640, 480) f) (frame_of (640, 480) f)
              (world_of script) (world_of script) same_draws_eq eq_refl
              (frame_of_course _ _ _ _)) as [_ Hslots].
  destruct (Hslots eq_refl 0%nat (slot_in_range 0 eq_refl))
    as (old & _ & sp & _ & Hold & _ & Hsp & _ & _ & Ha & Hb & _).
  cbn [frame_of mapped_memory] in Hold.
  rewrite memory_of_lookup in Hold by (apply slot_in_range; reflexivity).
  injection Hold as <-.
  exists sp. split; [exact Hsp | split; [exact Ha | exact Hb]].
Qed.

(** C8, as the specification states it, fails: the loop never assigns
    [padding_a] and [padding_b].  After a frame on mapped memory that held
    1.0 everywhere, the first record still has 1.0 in both padding fields,
    and the array differs from the one the same draws give on memory that
    held 0. *)
Lemma padding_survives_the_frame :
  let array f :=
    SpriteDataTransferBuffer
      (fst (run (SDL_AppIterate app0 (frame_of (640, 480) f)) (world_of []))) in
  (exists sp, array F32.one !! 0%nat = Some sp /\
              padding_a sp = F32.one /\ padding_b sp = F32.one) /\
  array F32.zero <> array F32.one.
Proof.
  intros array. split; [exact (frame_of_padding [] F32.one) |].
  destruct (frame_of_padding [] F32.zero) as (sp0 & Hsp0 & Ha0 & _).
  destruct (frame_of_padding [] F32.one) as (sp1 & Hsp1 & Ha1 & _).
  intros Heq. unfold array in Heq. rewrite Heq, Hsp1 in Hsp0.
  injection Hsp0 as ->. rewrite Ha1 in Ha0. discriminate Ha0.
Qed.

(** C8, amended: in every frame where the build step runs, every field
    of every one of the 8192 records other than the two padding fields is
    written anew: those fields depend on the draws of the frame alone, not
    on what the mapped memory or the transfer buffer held before.  The two
    padding fields are never assigned and keep what the mapped memory
    held. *)
Theorem written_fields_overwritten {rng : Type} `{RandomSource rng}
        (app1 app2 : AppContext) (e1 e2 : FrameEnv) (w1 w2 : World rng) :
  rand_state w1 = rand_state w2 ->
  builds e1 = true -> builds e2 = true ->
  (SPRITE_COUNT <= length (mapped_memory e1))%nat ->
  (SPRITE_COUNT <= length (mapped_memory e2))%nat ->
  forall j, (j < SPRITE_COUNT)%nat ->
    exists old1 old2 sp1 sp2,
      mapped_memory e1 !! j = Some old1 /\ mapped_memory e2 !! j = Some old2 /\
      SpriteDataTransferBuffer (fst (run (SDL_AppIterate app1 e1) w1)) !! j = Some sp1 /\
      SpriteDataTransferBuffer (fst (run (SDL_AppIterate app2 e2) w2)) !! j = Some sp2 /\
      written sp1 = written sp2 /\
      padding_a sp1 = padding_a old1 /\ padding_b sp1 = padding_b old1 /\
      padding_a sp2 = padding_a old2 /\ padding_b sp2 = padding_b old2.
Proof.
  intros Hs Hb1 Hb2 Hl1 Hl2 j Hj.
  destruct (frames_agree eq app1 app2 e1 e2 w1 w2 same_draws_eq Hs) as [_ Hslots].
  { split; [congruence | done]. }
  destruct (Hslots Hb1 j Hj)
    as (old1 & old2 & sp1 & sp2 & ? & ? & ? & ? & ? & ? & ? & ? & ? & _).
  by exists old1, old2, sp1, sp2.
Qed.

Lemma written_fields_overwritten_witness :
  let e1 := frame_of (640, 480) F32.zero in
  let e2 := frame_of (640, 480) F32.one in
  exists sp1 sp2,
    SpriteDataTransferBuffer (fst (run (SDL_AppIterate app0 e1) (world_of [5; 6]))) !! 3%nat
      = Some sp1 /\
    SpriteDataTransferBuffer (fst (run (SDL_AppIterate app0 e2) (world_of [5; 6]))) !! 3%nat
      = Some sp2 /\
    written sp1 = written sp2 /\
    padding_a sp1 = F32.zero /\ padding_a sp2 = F32.one.
Proof.
  intros e1 e2.
  destruct (written_fields_overwritten app0 app0 e1 e2 (world_of [5; 6]) (world_of [5; 6])
              eq_refl eq_refl eq_refl) with (j := 3%nat)
    as (old1 & old2 & sp1 & sp2 & Ho1 & Ho2 & Hs1 & Hs2 & Hw & Ha1 & _ & Ha2 & _).
  - cbn [e1 frame_of mapped_memory]. rewrite memory_of_length. apply Nat.le_refl.
  - cbn [e2 frame_of mapped_memory]. rewrite memory_of_length. apply Nat.le_refl.
  - apply slot_in_range. reflexivity.
  - cbn [e1 e2 frame_of mapped_memory] in Ho1, Ho2.
    rewrite memory_of_lookup in Ho1, Ho2 by (apply slot_in_range; reflexivity).
    injection Ho1 as <-. injection Ho2 as <-.
    exists sp1, sp2.
    split; [exact Hs1 |]. split; [exact Hs2 |]. split; [exact Hw |].
    split; [exact Ha1 | exact Ha2].
Defined.

(** * Runs *)

Section RunLemmas.
Context {rng : Type} `{RandomSource rng}.

Lemma runs_agree (R : rng -> rng -> Prop) (app1 app2 : AppContext)
      (envs1 envs2 : list FrameEnv) :
  same_draws R -> Forall2 same_course envs1 envs2 ->
  forall (w1 w2 : World rng), R (rand_state w1) (rand_state w2) ->
  forall k e1 e2 f1 f2,
    envs1 !! k = Some e1 -> envs2 !! k = Some e2 ->
    frames_from app1 envs1 w1 !! k = Some f1 ->
    frames_from app2 envs2 w2 !! k = Some f2 ->
    R (rand_state f1) (rand_state f2) /\
    (builds e1 = true ->
     forall j, (j < SPRITE_COUNT)%nat ->
       exists sp1 sp2,
         SpriteDataTransferBuffer f1 !! j = Some sp1 /\
         SpriteDataTransferBuffer f2 !! j = Some sp2 /\
         written sp1 = written sp2 /\
         (mapped_memory e1 !! j = mapped_memory e2 !! j -> sp1 = sp2)).
Proof.
  intros HR Hcourse. induction Hcourse as [| a1 a2 envs1 envs2 Ha _ IH];
    intros w1 w2 H0 k e1 e2 f1 f2 He1 He2 Hf1 Hf2; [done |].
  destruct (frames_agree R app1 app2 a1 a2 w1 w2 HR H0 Ha) as [HR' Hslots].
  destruct k as [| k]; cbn [frames_from] in Hf1, Hf2.
  - injection He1 as <-. injection He2 as <-.
    injection Hf1 as <-. injection Hf2 as <-.
    split; [exact HR' |]. intros Hb j Hj.
    destruct (Hslots Hb j Hj)
      as (old1 & old2 & sp1 & sp2 & Ho1 & Ho2 & ? & ? & ? & _ & _ & _ & _ & Hsame).
    exists sp1, sp2. do 3 (split; [done |]).
    rewrite Ho1, Ho2. intros [= ->]. by apply Hsame.
  - exact (IH _ _ HR' k e1 e2 f1 f2 He1 He2 Hf1 Hf2).
Qed.

End RunLemmas.

Lemma cons_head_eq {A : Type} (a1 a2 : A) (l1 l2 : list A) :
  a1 :: l1 = a2 :: l2 -> a1 = a2.
Proof. by intros [= -> _]. Qed.

(** C5, as the specification states it, fails: the arrays of two runs
    with the same draws are not identical when the memory the runtime maps
    differs, because the padding fields are never assigned.  Two one-frame
    runs on the script [1; 2; 3], one on memory that held 0 and one on
    memory that held 0.5, leave different arrays. *)
Lemma same_draws_different_arrays :
  let arrays f :=
    SpriteDataTransferBuffer <$>
      frames_from app0 [frame_of (640, 480) f] (world_of [1; 2; 3]) in
  arrays F32.zero <> arrays F32.half.
Proof.
  intros arrays Heq. unfold arrays in Heq. cbn [frames_from fmap list_fmap] in Heq.
  apply cons_head_eq in Heq.
  destruct (frame_of_padding [1; 2; 3] F32.zero) as (sp0 & Hsp0 & Ha0 & _).
  destruct (frame_of_padding [1; 2; 3] F32.half) as (sp1 & Hsp1 & Ha1 & _).
  rewrite Heq, Hsp1 in Hsp0. injection Hsp0 as ->. rewrite Ha1 in Ha0. discriminate Ha0.
Qed.

(** C5, amended: two runs whose generators yield the same sequence of
    draws, and whose frames take the same course, produce sprite arrays
    that agree frame for frame on every field the build loop assigns; the
    two padding fields hold what the mapped memory held, so the arrays are
    identical wherever that memory is. *)
Theorem same_draws_same_sprites {rng : Type} `{RandomSource rng}
        (R : rng -> rng -> Prop) (app1 app2 : AppContext)
        (envs1 envs2 : list FrameEnv) (w1 w2 : World rng)
        (k : nat) (e1 e2 : FrameEnv) (f1 f2 : World rng) :
  same_draws R -> R (rand_state w1) (rand_state w2) ->
  Forall2 same_course envs1 envs2 ->
  envs1 !! k = Some e1 -> envs2 !! k = Some e2 ->
  frames_from app1 envs1 w1 !! k = Some f1 ->
  frames_from app2 envs2 w2 !! k = Some f2 ->
  builds e1 = true ->
  forall j, (j < SPRITE_COUNT)%nat ->
    exists sp1 sp2,
      SpriteDataTransferBuffer f1 !! j = Some sp1 /\
      SpriteDataTransferBuffer f2 !! j = Some sp2 /\
      written sp1 = written sp2 /\
      (mapped_memory e1 !! j = mapped_memory e2 !! j -> sp1 = sp2).
Proof.
  intros HR H0 Hcourse He1 He2 Hf1 Hf2 Hb.
  by apply (runs_agree R app1 app2 envs1 envs2 HR Hcourse w1 w2 H0 k e1 e2 f1 f2).
Qed.

Lemma same_draws_same_sprites_witness :
  let envs1 := [frame_without_texture; frame_of (640, 480) F32.zero] in
  let envs2 := [frame_without_texture; frame_of (320, 240) F32.half] in
  let w := world_of [1; 2; 3] in
  exists f1 f2 sp1 sp2,
    frames_from app0 envs1 w !! 1%nat = Some f1 /\
    frames_from app0 envs2 w !! 1%nat = Some f2 /\
    SpriteDataTransferBuffer f1 !! 0%nat = Some sp1 /\
    SpriteDataTransferBuffer f2 !! 0%nat = Some sp2 /\
    written sp1 = written sp2.
Proof.
  intros envs1 envs2 w.
  set (w' := fst (run (SDL_AppIterate app0 frame_without_texture) w)).
  set (f1 := fst (run (SDL_AppIterate app0 (frame_of (640, 480) F32.zero)) w')).
  set (f2 := fst (run (SDL_AppIterate app0 (frame_of (320, 240) F32.half)) w')).
  assert (Hcourse : Forall2 same_course envs1 envs2).
  { constructor; [| constructor; [apply frame_of_course | constructor]].
    split; [reflexivity |]. cbn [frame_without_texture frame_of mapped_memory].
    rewrite !memory_of_length. split; apply Nat.le_refl. }
  destruct (same_draws_same_sprites eq app0 app0 envs1 envs2 w w 1
              (frame_of (640, 480) F32.zero) (frame_of (320, 240) F32.half)
              f1 f2 same_draws_eq eq_refl Hcourse eq_refl eq_refl eq_refl eq_refl eq_refl
              0%nat (slot_in_range 0 eq_refl))
    as (sp1 & sp2 & Hs1 & Hs2 & Hw & _).
  exists f1, f2, sp1, sp2. split; [reflexivity |]. split; [reflexivity |].
  split; [exact Hs1 | split; [exact Hs2 | exact Hw]].
Defined.

(** * Quit requests and frames without a texture *)

Lemma handle_events_quit (app : AppContext) (events : list SDL_Event) :
  app_quit (handle_events app events) =
  if quit_received events then SDL_APP_SUCCESS
  else app_quit app.
Proof.
  unfold handle_events, quit_received. revert app.
  induction events as [| ev events IH]; intros app; [reflexivity |].
  cbn [fold_left existsb]. rewrite IH.
  destruct ev; cbn [is_quit orb SDL_AppEvent fst app_quit]; try reflexivity.
  by destruct (existsb is_quit events).
Qed.

(** * Commands *)

Section CommandLemmas.
Context {rng : Type} `{RandomSource rng}.

Lemma bind_ret_l {A B} (v : A) (k : A -> Cmd (World rng) B) (wd : World rng) :
  bind (ret v) k wd = k v wd.
Proof. reflexivity. Qed.

Lemma ends_bind {A B} (m : Cmd (World rng) A) (k : A -> Cmd (World rng) B)
      (Q : B -> Prop) :
  (forall v, ends_with (k v) Q) -> ends_with (bind m k) Q.
Proof.
  intros Hk wd wd' v. unfold bind. destruct (m wd) as [wd1 [u | res |]]; [| done | done].
  apply Hk.
Qed.

Lemma ends_ret {A} (v : A) (Q : A -> Prop) : Q v -> ends_with (ret (St := World rng) v) Q.
Proof. intros HQ wd wd' u [= _ <-]. exact HQ. Qed.

Lemma ends_fail {A} (err : string) (Q : A -> Prop) :
  ends_with (SDL_Fail (rng := rng) err) Q.
Proof. intros wd wd' v. discriminate. Qed.

Lemma ends_undefined {A} (Q : A -> Prop) : ends_with (undefined (rng := rng)) Q.
Proof. intros wd wd' v. discriminate. Qed.

Lemma appends_undefined {A} (P : Call -> bool) :
  appends P (undefined (rng := rng) (A := A)).
Proof. intros wd. exists []. by rewrite app_nil_r. Qed.

Lemma appends_ret {A} (P : Call -> bool) (v : A) : appends P (ret (St := World rng) v).
Proof. intros wd. exists []. by rewrite app_nil_r. Qed.

Lemma appends_return {A} (P : Call -> bool) (res : SDL_AppResult) :
  appends P (return_ (St := World rng) (A := A) res).
Proof. intros wd. exists []. by rewrite app_nil_r. Qed.

Lemma appends_call (P : Call -> bool) (c : Call) :
  P c = false -> appends P (call (rng := rng) c).
Proof. intros HP wd. exists [c]. cbn. by rewrite HP. Qed.

Lemma appends_set_world (P : Call -> bool) (f : World rng -> World rng) :
  (forall wd, trace (f wd) = trace wd) -> appends P (set_world f).
Proof. intros Hf wd. exists []. cbn. by rewrite Hf, app_nil_r. Qed.

Lemma appends_bind {A B} (P : Call -> bool) (m : Cmd (World rng) A)
      (k : A -> Cmd (World rng) B) :
  appends P m -> (forall v, appends P (k v)) -> appends P (bind m k).
Proof.
  intros Hm Hk wd. destruct (Hm wd) as (post1 & H1 & HP1). unfold bind.
  destruct (m wd) as [wd1 [v | res |]]; cbn [fst] in *.
  - destruct (Hk v wd1) as (post2 & H2 & HP2).
    exists (post1 ++ post2). rewrite H2, H1, app_assoc. split; [done |].
    by rewrite existsb_app, HP1, HP2.
  - by exists post1.
  - by exists post1.
Qed.

Lemma appends_fail {A} (P : Call -> bool) (err : string) :
  P (SDL_LogError "Error %s" [ArgStr err]) = false ->
  appends P (SDL_Fail (rng := rng) (A := A) err).
Proof.
  intros HP. unfold SDL_Fail. apply appends_bind; [by apply appends_call |].
  intros _. apply appends_return.
Qed.

Lemma appends_check (P : Call -> bool) (ok : bool) (err : string) :
  P (SDL_LogError "Error %s" [ArgStr err]) = false -> appends P (check (rng := rng) ok err).
Proof. intros HP. destruct ok; [apply appends_ret | by apply appends_fail]. Qed.

Lemma appends_check_ptr {A} (P : Call -> bool) (p : option A) (err : string) :
  P (SDL_LogError "Error %s" [ArgStr err]) = false -> appends P (check_ptr (rng := rng) p err).
Proof. intros HP. destruct p; [apply appends_ret | by apply appends_fail]. Qed.

End CommandLemmas.

(** Walks through a command, one bind at a time. *)
Ltac appends_step :=
  first
    [ apply appends_bind; [| intros ?]
    | apply appends_call; reflexivity
    | apply appends_ret
    | apply appends_return
    | apply appends_undefined
    | apply appends_fail; reflexivity
    | apply appends_check; reflexivity
    | apply appends_check_ptr; reflexivity
    | apply appends_set_world; intros ?; reflexivity
    | match goal with
      | |- appends _ (match ?t with _ => _ end) => destruct t
      end
    | progress unfold copy_pixels ].

Ltac ends_step :=
  first
    [ apply ends_bind; intros ?
    | apply ends_fail
    | apply ends_undefined
    | match goal with
      | |- ends_with (match ?t with _ => _ end) _ => destruct t
      end
    | progress unfold copy_pixels ].

Section IterateResult.
Context {rng : Type} `{RandomSource rng}.

(** A frame in which no backend call fails returns the quit status. *)
Lemma iterate_returns_quit_status (app : AppContext) (env : FrameEnv) (wd : World rng) :
  frame_succeeds env = true ->
  snd (run (SDL_AppIterate app env) wd) = Some (app_quit app).
Proof.
  unfold frame_succeeds. intros Hok.
  destruct (acquired_command_buffer env) as [c |] eqn:Hc; [| done].
  apply andb_prop in Hok as [Hs Ht].
  destruct (swapchainTexture env) as [t |] eqn:Htex.
  - apply bool_decide_eq_true in Ht.
    destruct (frame_sprites app env wd) as (wd' & -> & _); [| done | done].
    unfold builds. by rewrite Hc, Htex.
  - unfold run, SDL_AppIterate. by rewrite Hc, Hs, Htex.
Qed.

Lemma init_ends_with_continue (env : InitEnv (rng := rng)) :
  ends_with (SDL_AppInit env)
    (fun '(app, res) => res = SDL_APP_CONTINUE /\ app_quit app = SDL_APP_CONTINUE).
Proof.
  unfold SDL_AppInit. cbv zeta. repeat ends_step. by apply ends_ret.
Qed.

(** [SDL_AppInit] reaches its end only with the continue signal, in the
    result and in the context. *)
Lemma init_context (env : InitEnv) (wd wd' : World rng)
      (res : option SDL_AppResult) (app : AppContext) :
  app_init env wd = (wd', res, Some app) ->
  res = Some SDL_APP_CONTINUE /\ app_quit app = SDL_APP_CONTINUE.
Proof.
  unfold app_init. intros Hinit.
  destruct (SDL_AppInit env wd) as [wd1 [[app1 res1] | res1 |]] eqn:E;
    [| discriminate | discriminate].
  injection Hinit as <- <- <-.
  destruct (init_ends_with_continue env wd wd1 (app1, res1) E) as [-> Hq]. done.
Qed.

End IterateResult.

(** C7: the context [SDL_AppInit] creates carries the continue signal
    and [SDL_AppEvent] itself always returns it.  After any run of events, an
    iteration in which no backend call fails returns the success signal if
    a quit event was among them, and the continue signal otherwise. *)
Theorem quit_turns_continue_into_success {rng : Type} `{RandomSource rng}
        (ienv : InitEnv) (wd0 wd1 : World rng) (res : option SDL_AppResult)
        (app : AppContext) (events : list SDL_Event)
        (env : FrameEnv) (wd : World rng) :
  app_init ienv wd0 = (wd1, res, Some app) ->
  frame_succeeds env = true ->
  res = Some SDL_APP_CONTINUE /\
  Forall (fun ev => forall ctx, snd (SDL_AppEvent ctx ev) = SDL_APP_CONTINUE) events /\
  snd (run (SDL_AppIterate (handle_events app events) env) wd) =
    Some (if quit_received events then SDL_APP_SUCCESS else SDL_APP_CONTINUE).
Proof.
  intros Hinit Hok. destruct (init_context _ _ _ _ _ Hinit) as [-> Hq].
  split; [done |]. split.
  - apply Forall_forall. intros ev _ ctx. by destruct ev.
  - rewrite iterate_returns_quit_status, handle_events_quit, Hq by done. done.
Qed.

Lemma init_env_starts :
  snd (app_init (init_env [] []) world_before_init) = Some app0.
Proof. vm_compute. reflexivity. Qed.

Lemma frame_of_succeeds (size : Z * Z) (f : float) :
  frame_succeeds (frame_of size f) = true.
Proof.
  unfold frame_succeeds.
  cbn [frame_of acquired_command_buffer swapchain_acquired swapchainTexture
       mapped_memory andb].
  rewrite memory_of_length. apply bool_decide_eq_true_2, Nat.le_refl.
Qed.

Lemma quit_turns_continue_into_success_witness :
  snd (app_init (init_env [] []) world_before_init) = Some app0 /\
  snd (run (SDL_AppIterate (handle_events app0 [SDL_EVENT_OTHER 768]) frame_without_texture)
           (world_of [])) = Some SDL_APP_CONTINUE /\
  snd (run (SDL_AppIterate
              (handle_events app0 [SDL_EVENT_WINDOW_RESIZED 320 240; SDL_EVENT_QUIT])
              (frame_of (320, 240) F32.zero)) (world_of [])) = Some SDL_APP_SUCCESS.
Proof.
  assert (Hinit : app_init (init_env [] []) world_before_init =
                  (fst (fst (app_init (init_env [] []) world_before_init)),
                   snd (fst (app_init (init_env [] []) world_before_init)),
                   Some app0)).
  { generalize init_env_starts.
    generalize (app_init (init_env [] []) world_before_init).
    intros [[wd1 res] app] Happ. cbn [fst snd] in *. rewrite Happ. reflexivity. }
  split; [exact init_env_starts |]. split.
  - exact (proj2 (proj2 (quit_turns_continue_into_success
             (init_env [] []) world_before_init _ _ app0 [SDL_EVENT_OTHER 768]
             frame_without_texture (world_of []) Hinit eq_refl))).
  - exact (proj2 (proj2 (quit_turns_continue_into_success
             (init_env [] []) world_before_init _ _ app0
             [SDL_EVENT_WINDOW_RESIZED 320 240; SDL_EVENT_QUIT]
             (frame_of (320, 240) F32.zero) (world_of []) Hinit
             (frame_of_succeeds _ _)))).
Defined.

(** C10: when the swapchain texture is acquired without error but is
    [NULL], the iteration skips build, upload and draw: the generator and
    both sprite buffers are as before, the only calls made are the two
    acquisitions and the submission of the acquired command buffer (no
    error is logged), and the result is the current quit status
    [app_quit]. *)
Theorem no_texture_skips_the_build {rng : Type} `{RandomSource rng}
        (app : AppContext) (env : FrameEnv) (wd : World rng) (cmdBuf : Handle) :
  acquired_command_buffer env = Some cmdBuf ->
  swapchain_acquired env = true ->
  swapchainTexture env = None ->
  run (SDL_AppIterate app env) wd =
    ({| rand_state := rand_state wd;
        SpriteDataTransferBuffer := SpriteDataTransferBuffer wd;
        SpriteDataBuffer := SpriteDataBuffer wd;
        trace := trace wd ++ [SDL_AcquireGPUCommandBuffer (device app);
                              SDL_WaitAndAcquireGPUSwapchainTexture cmdBuf (window app);
                              SDL_SubmitGPUCommandBuffer cmdBuf] |},
     Some (app_quit app)).
Proof.
  intros Hc Hs Ht. destruct wd as [s0 transfer0 buffer0 trace0].
  unfold run, SDL_AppIterate. rewrite Hc, Hs, Ht.
  cbv beta iota delta [negb bind call ret
                       rand_state SpriteDataTransferBuffer SpriteDataBuffer trace].
  rewrite <- !app_assoc. reflexivity.
Qed.

Lemma no_texture_skips_the_build_witness :
  run (SDL_AppIterate app0 frame_without_texture) (world_of [1; 2; 3]) =
    ({| rand_state := [1; 2; 3];
        SpriteDataTransferBuffer := memory_of F32.zero;
        SpriteDataBuffer := memory_of F32.zero;
        trace := [SDL_AcquireGPUCommandBuffer 2%nat;
                  SDL_WaitAndAcquireGPUSwapchainTexture 7%nat 1%nat;
                  SDL_SubmitGPUCommandBuffer 7%nat] |},
     Some SDL_APP_CONTINUE).
Proof.
  exact (no_texture_skips_the_build app0 frame_without_texture (world_of [1; 2; 3]) 7%nat
           eq_refl eq_refl eq_refl).
Defined.

(** * Start-up *)

(** C9: once the window is claimed for the device, start-up asks for
    the immediate present mode when the window supports it, else for the
    mailbox mode when the window supports that, else for vsync, in this
    order of preference; it applies the chosen mode to the swapchain in
    its one call of [SDL_SetGPUSwapchainParameters], the first call it makes
    that is recorded. *)
Theorem present_mode_negotiation {rng : Type} `{RandomSource rng}
        (ienv : InitEnv) (wd : World rng) (win dev : Handle) (basePath : string) :
  SDL_Init_ok ienv = true ->
  TTF_Init_ok ienv = true ->
  SDL_CreateWindow ienv = Some win ->
  SDL_GetBasePath ienv = Some basePath ->
  SDL_CreateGPUDevice ienv = Some dev ->
  SDL_ClaimWindowForGPUDevice ienv = true ->
  let supports := SDL_WindowSupportsGPUPresentMode ienv in
  let mode := choose_present_mode supports in
  (supports SDL_GPU_PRESENTMODE_IMMEDIATE = true -> mode = SDL_GPU_PRESENTMODE_IMMEDIATE) /\
  (supports SDL_GPU_PRESENTMODE_IMMEDIATE = false ->
   supports SDL_GPU_PRESENTMODE_MAILBOX = true -> mode = SDL_GPU_PRESENTMODE_MAILBOX) /\
  (supports SDL_GPU_PRESENTMODE_IMMEDIATE = false ->
   supports SDL_GPU_PRESENTMODE_MAILBOX = false -> mode = SDL_GPU_PRESENTMODE_VSYNC) /\
  exists rest,
    trace (fst (SDL_AppInit ienv wd)) =
      trace wd ++
      SDL_SetGPUSwapchainParameters SDL_GPU_SWAPCHAINCOMPOSITION_SDR mode :: rest /\
    existsb is_swapchain_parameters rest = false.
Proof.
  intros Hi Ht Hw Hp Hd Hc supports mode.
  split; [| split; [| split]].
  - intros Him. unfold mode, choose_present_mode. by rewrite Him.
  - intros Him Hmb. unfold mode, choose_present_mode. by rewrite Him, Hmb.
  - intros Him Hmb. unfold mode, choose_present_mode. by rewrite Him, Hmb.
  - unfold SDL_AppInit. cbv zeta. rewrite Hi, Ht, Hw, Hp, Hd, Hc.
    cbn [check check_ptr]. rewrite !bind_ret_l.
    fold supports. fold mode. clearbody mode.
    match goal with
    | |- context [bind (call ?c) ?k wd] =>
        assert (Hrest : appends is_swapchain_parameters (k tt));
        [ cbv beta | destruct (Hrest (fst (call c wd))) as (post & Htr & HP) ]
    end.
    + repeat appends_step.
    + exists post. split; [| exact HP].
      unfold bind at 1. cbn [call fst snd] in Htr |- *.
      rewrite Htr. cbn [trace]. by rewrite <- app_assoc.
Qed.

Lemma present_mode_negotiation_witness :
  (exists rest,
     trace (fst (SDL_AppInit (init_env [] [SDL_GPU_PRESENTMODE_MAILBOX; SDL_GPU_PRESENTMODE_VSYNC])
                             world_before_init)) =
     SDL_SetGPUSwapchainParameters SDL_GPU_SWAPCHAINCOMPOSITION_SDR
                                   SDL_GPU_PRESENTMODE_MAILBOX :: rest) /\
  choose_present_mode
    (SDL_WindowSupportsGPUPresentMode
       (init_env [] [SDL_GPU_PRESENTMODE_IMMEDIATE; SDL_GPU_PRESENTMODE_MAILBOX])) =
  SDL_GPU_PRESENTMODE_IMMEDIATE /\
  choose_present_mode (SDL_WindowSupportsGPUPresentMode (init_env [] [])) =
  SDL_GPU_PRESENTMODE_VSYNC.
Proof.
  split; [| split].
  - destruct (present_mode_negotiation
                (init_env [] [SDL_GPU_PRESENTMODE_MAILBOX; SDL_GPU_PRESENTMODE_VSYNC])
                world_before_init 1%nat 2%nat "/app/"
                eq_refl eq_refl eq_refl eq_refl eq_refl eq_refl)
      as (_ & Hmb & _ & rest & Htrace & _).
    exists rest. rewrite Htrace, (Hmb eq_refl eq_refl). reflexivity.
  - exact (proj1 (present_mode_negotiation
                    (init_env [] [SDL_GPU_PRESENTMODE_IMMEDIATE; SDL_GPU_PRESENTMODE_MAILBOX])
                    world_before_init 1%nat 2%nat "/app/"
                    eq_refl eq_refl eq_refl eq_refl eq_refl eq_refl) eq_refl).
  - exact (proj1 (proj2 (proj2 (present_mode_negotiation
                    (init_env [] []) world_before_init 1%nat 2%nat "/app/"
                    eq_refl eq_refl eq_refl eq_refl eq_refl eq_refl))) eq_refl eq_refl).
Defined.

(** The checked assets: a missing image, font or music file makes
    [SDL_AppInit] log an error and return the failure signal. *)
Lemma init_fails_without_checked_asset :
  Forall (fun asset =>
            let '(wd, res, app) := app_init (init_env [asset] []) world_before_init in
            res = Some SDL_APP_FAILURE /\ app = None /\
            existsb is_error_log (trace wd) = true)
         ["ravioli_atlas.bmp"; "/app/Inter-VariableFont.ttf"; "/app/the_entertainer.ogg"].
Proof. repeat (apply Forall_cons; split; [vm_compute; done |]). apply Forall_nil_2. Qed.

(** C6 at its failing input: with the vertex shader missing (and
    likewise with the fragment shader missing, or both) [SDL_AppInit] logs
    no error, creates the pipeline from the [NULL] shader and returns the
    continue signal. *)
Lemma init_succeeds_without_shader :
  Forall (fun missing =>
            let '(wd, res, app) := app_init (init_env missing []) world_before_init in
            res = Some SDL_APP_CONTINUE /\ is_Some app /\
            existsb is_error_log (trace wd) = false /\
            existsb (fun c => match c with
                              | SDL_CreateGPUGraphicsPipeline None _
                              | SDL_CreateGPUGraphicsPipeline _ None => true
                              | _ => false
                              end) (trace wd) = true)
         [["PullSpriteBatch.vert"]; ["TexturedQuadColor.frag"];
          ["PullSpriteBatch.vert"; "TexturedQuadColor.frag"]].
Proof. repeat (apply Forall_cons; split; [vm_compute; eauto |]). apply Forall_nil_2. Qed.

(** * Further properties of a frame *)

(** [SDL_AppIterate], result: unless the build loop runs out of mapped
    memory, an iteration returns the failure signal when the command buffer
    or the swapchain texture cannot be acquired, and the quit status of the
    context otherwise. *)
Theorem iterate_result {rng : Type} `{RandomSource rng}
        (app : AppContext) (env : FrameEnv) (wd : World rng) :
  (builds env = true -> (SPRITE_COUNT <= length (mapped_memory env))%nat) ->
  snd (run (SDL_AppIterate app env) wd) =
    Some (match acquired_command_buffer env with
          | Some _ => if swapchain_acquired env then app_quit app else SDL_APP_FAILURE
          | None => SDL_APP_FAILURE
          end).
Proof.
  intros Hmem. destruct (builds env) eqn:Hb.
  - destruct (frame_sprites app env wd Hb (Hmem eq_refl)) as (wd' & -> & _).
    destruct (builds_inv env Hb) as (c & t & -> & -> & _). reflexivity.
  - unfold builds in Hb. unfold run, SDL_AppIterate.
    destruct (acquired_command_buffer env) as [c |]; [| reflexivity].
    destruct (swapchain_acquired env); [| reflexivity].
    destruct (swapchainTexture env) as [t |]; [discriminate | reflexivity].
Qed.

Lemma iterate_result_witness :
  snd (run (SDL_AppIterate app0 (frame_of (640, 480) F32.zero)) (world_of [])) =
    Some SDL_APP_CONTINUE /\
  snd (run (SDL_AppIterate app0
              {| acquired_command_buffer := Some 7%nat; swapchain_acquired := false;
                 swapchainTexture := None; mapped_memory := [];
                 window_size := (640, 480); frame_error := "lost" |})
           (world_of [])) = Some SDL_APP_FAILURE.
Proof.
  split.
  - refine (iterate_result app0 (frame_of (640, 480) F32.zero) (world_of []) _).
    intros _. cbn [frame_of mapped_memory]. rewrite memory_of_length. apply Nat.le_refl.
  - refine (iterate_result app0 _ (world_of []) _). intros Hb. discriminate Hb.
Defined.

(** [SDL_AppIterate], failed acquisition: after the acquisition that
    fails the iteration logs the failure and the error and does nothing
    else.  The generator and both sprite buffers are as before, and when it
    is the swapchain texture that cannot be acquired, the command buffer
    acquired just before is not submitted. *)
Theorem failed_acquisition_only_logs {rng : Type} `{RandomSource rng}
        (app : AppContext) (env : FrameEnv) (wd : World rng) :
  match acquired_command_buffer env with
  | Some _ => swapchain_acquired env = false
  | None => True
  end ->
  exists msg acquisitions,
    (msg, acquisitions) =
      match acquired_command_buffer env with
      | Some cmdBuf =>
          ("WaitAndAcquireGPUSwapchainTexture failed: %s",
           [SDL_AcquireGPUCommandBuffer (device app);
            SDL_WaitAndAcquireGPUSwapchainTexture cmdBuf (window app)])
      | None =>
          ("AcquireGPUCommandBuffer failed: %s",
           [SDL_AcquireGPUCommandBuffer (device app)])
      end /\
    run (SDL_AppIterate app env) wd =
      ({| rand_state := rand_state wd;
          SpriteDataTransferBuffer := SpriteDataTransferBuffer wd;
          SpriteDataBuffer := SpriteDataBuffer wd;
          trace := trace wd ++ acquisitions ++
                   [SDL_Log msg [ArgStr (frame_error env)];
                    SDL_LogError "Error %s" [ArgStr (frame_error env)]] |},
       Some SDL_APP_FAILURE).
Proof.
  intros Hfail. destruct wd as [s0 transfer0 buffer0 trace0].
  unfold run, SDL_AppIterate.
  destruct (acquired_command_buffer env) as [c |]; [rewrite Hfail |];
    (do 2 eexists; split; [reflexivity |]);
    cbv beta iota delta [negb SDL_Fail bind call return_ fst snd
                         rand_state SpriteDataTransferBuffer SpriteDataBuffer trace];
    rewrite <- !app_assoc; reflexivity.
Qed.

Lemma failed_acquisition_only_logs_witness :
  existsb is_submit
    (trace (fst (run (SDL_AppIterate app0
                        {| acquired_command_buffer := Some 7%nat;
                           swapchain_acquired := false;
                           swapchainTexture := None; mapped_memory := [];
                           window_size := (640, 480); frame_error := "lost" |})
                     world_before_init))) = false.
Proof.
  destruct (failed_acquisition_only_logs app0
              {| acquired_command_buffer := Some 7%nat; swapchain_acquired := false;
                 swapchainTexture := None; mapped_memory := [];
                 window_size := (640, 480); frame_error := "lost" |}
              world_before_init eq_refl) as (msg & acquisitions & Hcalls & ->).
  cbn [acquired_command_buffer] in Hcalls. injection Hcalls as -> ->.
  reflexivity.
Defined.

(** [SDL_AppIterate], call order: a frame that reaches the build step
    makes fifteen calls: the two acquisitions, map (cycling) and unmap
    around the fill, one upload of [SPRITE_COUNT] records inside a copy
    pass, one render pass with a single draw of
    [6 * SPRITE_COUNT = 49152] vertices in one instance, and the submission
    of the command buffer last.  The device of the context is the one the
    command buffer is acquired from and the transfer buffer is mapped on,
    its window the one the swapchain texture is acquired for. *)
Theorem building_frame_calls {rng : Type} `{RandomSource rng}
        (app : AppContext) (env : FrameEnv) (wd : World rng) (cmdBuf tex : Handle) :
  acquired_command_buffer env = Some cmdBuf ->
  swapchain_acquired env = true ->
  swapchainTexture env = Some tex ->
  (SPRITE_COUNT <= length (mapped_memory env))%nat ->
  let calls := frame_calls app cmdBuf tex in
  trace (fst (run (SDL_AppIterate app env) wd)) = trace wd ++ calls /\
  length calls = 15%nat /\
  filter (fun c => is_draw c = true) calls = [SDL_DrawGPUPrimitives (SPRITE_COUNT * 6) 1] /\
  Z.of_nat (SPRITE_COUNT * 6) = 49152 /\
  last calls = Some (SDL_SubmitGPUCommandBuffer cmdBuf) /\
  filter (fun c => is_submit c = true) calls = [SDL_SubmitGPUCommandBuffer cmdBuf] /\
  SpriteDataBuffer (fst (run (SDL_AppIterate app env) wd)) =
    take SPRITE_COUNT (SpriteDataTransferBuffer (fst (run (SDL_AppIterate app env) wd))).
Proof.
  intros Hc Hs Ht Hlen calls.
  destruct (build_sprites_spec (rand_state wd) (mapped_memory env) Hlen)
    as (data & Hrun & _).
  rewrite (iterate_builds app env wd cmdBuf tex _ data Hc Hs Ht Hrun). cbn [fst trace].
  split; [reflexivity |]. split; [reflexivity |]. split; [reflexivity |].
  split; [vm_compute; reflexivity |]. split; [reflexivity |]. split; reflexivity.
Qed.

Lemma building_frame_calls_witness :
  existsb is_draw
    (trace (fst (run (SDL_AppIterate app0 (frame_of (640, 480) F32.zero))
                     (world_of [])))) = true.
Proof.
  destruct (building_frame_calls app0 (frame_of (640, 480) F32.zero) (world_of [])
              7%nat 8%nat eq_refl eq_refl eq_refl) as (-> & _).
  - cbn [frame_of mapped_memory]. rewrite memory_of_length. apply Nat.le_refl.
  - reflexivity.
Defined.

(** No event changes the handles of the context. *)
Lemma handle_events_handles (app : AppContext) (events : list SDL_Event) :
  window (handle_events app events) = window app /\
  device (handle_events app events) = device app.
Proof.
  unfold handle_events. revert app.
  induction events as [| ev events IH]; intros app; [split; reflexivity |].
  cbn [fold_left]. destruct (IH (fst (SDL_AppEvent app ev))) as [-> ->].
  destruct ev; split; reflexivity.
Qed.

Section QuitStatus.
Context {rng : Type} `{RandomSource rng}.

(** The context enters the world a frame leaves only through its device
    and its window. *)
Lemma iterate_world (app1 app2 : AppContext) (env : FrameEnv) (wd : World rng) :
  window app1 = window app2 -> device app1 = device app2 ->
  fst (run (SDL_AppIterate app1 env) wd) = fst (run (SDL_AppIterate app2 env) wd).
Proof.
  intros Hw Hd. destruct wd as [s0 transfer0 buffer0 trace0].
  unfold run, SDL_AppIterate, build_transfer. rewrite Hw, Hd.
  destruct (acquired_command_buffer env) as [c |]; [| reflexivity].
  destruct (swapchain_acquired env); [| reflexivity].
  destruct (swapchainTexture env) as [t |]; [| reflexivity].
  cbv beta iota delta [upload_instances render_sprites bind call ret negb
                       rand_state SpriteDataTransferBuffer SpriteDataBuffer trace].
  destruct (build_sprites s0 (mapped_memory env)) as [[s1 data] |]; reflexivity.
Qed.

End QuitStatus.

(** [SDL_AppIterate] and the quit status: what an iteration does to the
    generator, the buffers and the calls it makes depends on the context
    only through its device and its window, not through the quit status.
    Events leave both handles alone, so the iteration after any run of
    events, a quit request included, does what it would have done without
    them: the iteration that returns the success signal still fills,
    uploads, draws and submits a whole frame. *)
Theorem frame_ignores_quit_status {rng : Type} `{RandomSource rng}
        (app1 app2 : AppContext) (events : list SDL_Event)
        (env : FrameEnv) (wd : World rng) :
  window app1 = window app2 ->
  device app1 = device app2 ->
  fst (run (SDL_AppIterate app1 env) wd) = fst (run (SDL_AppIterate app2 env) wd) /\
  fst (run (SDL_AppIterate (handle_events app1 events) env) wd) =
    fst (run (SDL_AppIterate app1 env) wd).
Proof.
  intros Hw Hd. split; [exact (iterate_world app1 app2 env wd Hw Hd) |].
  destruct (handle_events_handles app1 events) as [Hw' Hd'].
  exact (iterate_world _ _ env wd Hw' Hd').
Qed.

Lemma frame_ignores_quit_status_witness :
  app_quit (handle_events app0 [SDL_EVENT_QUIT]) = SDL_APP_SUCCESS /\
  fst (run (SDL_AppIterate (handle_events app0 [SDL_EVENT_QUIT])
                           (frame_of (640, 480) F32.zero)) (world_of [])) =
  fst (run (SDL_AppIterate app0 (frame_of (640, 480) F32.zero)) (world_of [])).
Proof.
  split; [reflexivity |].
  exact (proj2 (frame_ignores_quit_status app0 app0 [SDL_EVENT_QUIT]
                  (frame_of (640, 480) F32.zero) (world_of []) eq_refl eq_refl)).
Defined.

(** * Further properties of runs and events *)

Section RunAdvance.
Context {rng : Type} `{RandomSource rng}.

Lemma rng_at_add (i j : nat) (s : rng) : rng_at (i + j) s = rng_at i (rng_at j s).
Proof. unfold rng_at. apply Nat.iter_add. Qed.

Lemma building_frames_cons (env : FrameEnv) (envs : list FrameEnv) :
  building_frames (env :: envs) =
  ((if builds env then 1 else 0) + building_frames envs)%nat.
Proof.
  unfold building_frames. rewrite filter_cons.
  destruct (builds env); [rewrite decide_True by done | rewrite decide_False by done];
    reflexivity.
Qed.

Lemma frame_advances_generator (app : AppContext) (env : FrameEnv) (wd : World rng) :
  (SPRITE_COUNT <= length (mapped_memory env))%nat ->
  rand_state (fst (run (SDL_AppIterate app env) wd)) =
  rng_at (SPRITE_COUNT * (if builds env then 1 else 0)) (rand_state wd).
Proof.
  intros Hlen. destruct (builds env) eqn:Hb.
  - destruct (frame_sprites app env wd Hb Hlen) as (wd' & Hrun & Hs & _).
    rewrite Hrun. cbn [fst]. by rewrite Hs, Nat.mul_1_r.
  - destruct (iterate_skips app env wd Hb) as (-> & _). by rewrite Nat.mul_0_r.
Qed.

End RunAdvance.

(** [SDL_AppIterate] over a run: the generator is never reseeded and
    never rewound.  After the frame of index [k] it has advanced by exactly
    [SPRITE_COUNT] sprites (four draws each) for every frame so far that
    reached the build step, and not at all for the frames that did not. *)
Theorem run_advances_generator {rng : Type} `{RandomSource rng}
        (app : AppContext) (envs : list FrameEnv) (wd : World rng)
        (k : nat) (f : World rng) :
  Forall (fun env => (SPRITE_COUNT <= length (mapped_memory env))%nat) envs ->
  frames_from app envs wd !! k = Some f ->
  rand_state f =
  rng_at (SPRITE_COUNT * building_frames (take (S k) envs)) (rand_state wd).
Proof.
  intros Hmem. revert wd k f.
  induction Hmem as [| env envs Henv _ IH]; intros wd k f Hf; [done |].
  cbn [frames_from] in Hf. rewrite firstn_cons, building_frames_cons.
  destruct k as [| k].
  - injection Hf as <-. rewrite take_0. unfold building_frames at 1.
    cbn [filter list_filter length]. rewrite Nat.add_0_r.
    by apply frame_advances_generator.
  - cbn [lookup list_lookup] in Hf. rewrite (IH _ _ _ Hf).
    rewrite frame_advances_generator by done.
    rewrite <- rng_at_add. f_equal. lia.
Qed.

Lemma run_advances_generator_witness :
  let envs := [frame_of (640, 480) F32.zero; frame_without_texture;
               frame_of (320, 240) F32.one] in
  exists f,
    frames_from app0 envs (world_of [1; 2; 3]) !! 2%nat = Some f /\
    rand_state f = rng_at (SPRITE_COUNT * 2) [1; 2; 3].
Proof.
  intros envs.
  set (w1 := fst (run (SDL_AppIterate app0 (frame_of (640, 480) F32.zero))
                      (world_of [1; 2; 3]))).
  set (w2 := fst (run (SDL_AppIterate app0 frame_without_texture) w1)).
  set (w3 := fst (run (SDL_AppIterate app0 (frame_of (320, 240) F32.one)) w2)).
  assert (Hmem : Forall (fun env => (SPRITE_COUNT <= length (mapped_memory env))%nat) envs).
  { repeat (constructor; [cbn [frame_of frame_without_texture mapped_memory];
                          rewrite memory_of_length; apply Nat.le_refl |]).
    constructor. }
  assert (Hn : building_frames (take 3 envs) = 2%nat) by reflexivity.
  pose proof (run_advances_generator app0 envs (world_of [1; 2; 3]) 2 w3 Hmem eq_refl)
    as Hadv.
  rewrite Hn in Hadv. exists w3. split; [reflexivity | exact Hadv].
Defined.

(** [SDL_AppEvent] over a run of events: a quit request is never taken
    back by a later event, no event changes the window, device, audio
    device or music of the context, and events other than the quit request
    leave the context as it is. *)
Theorem quit_is_sticky (app : AppContext) (before after : list SDL_Event) :
  let app' := handle_events app (before ++ SDL_EVENT_QUIT :: after) in
  app_quit app' = SDL_APP_SUCCESS /\
  window app' = window app /\ device app' = device app /\
  audioDevice app' = audioDevice app /\ music app' = music app /\
  (quit_received before = false -> handle_events app before = app).
Proof.
  assert (Hkeep : forall events ctx,
            window (handle_events ctx events) = window ctx /\
            device (handle_events ctx events) = device ctx /\
            audioDevice (handle_events ctx events) = audioDevice ctx /\
            music (handle_events ctx events) = music ctx).
  { unfold handle_events. induction events as [| ev events IH]; intros ctx; [done |].
    cbn [fold_left]. destruct (IH (fst (SDL_AppEvent ctx ev))) as (-> & -> & -> & ->).
    by destruct ev. }
  intros app'. subst app'. rewrite handle_events_quit.
  unfold quit_received. rewrite existsb_app. cbn [existsb is_quit].
  rewrite orb_true_r. split; [done |].
  destruct (Hkeep (before ++ SDL_EVENT_QUIT :: after) app) as (-> & -> & -> & ->).
  do 4 (split; [done |]).
  clear. revert app. unfold handle_events.
  induction before as [| ev before IH]; intros app Hq; [done |].
  cbn [existsb fold_left] in *. apply orb_false_elim in Hq as [Hev Hq].
  destruct ev; try discriminate; by apply IH.
Qed.

(** The build loop and the mapping: [SDL_AppIterate] uses the pointer
    [SDL_MapGPUTransferBuffer] returns without testing it.  When the
    mapping gives access to fewer than [SPRITE_COUNT] records (to none,
    when it fails), a frame that reaches the build step writes outside the
    mapped memory: its behaviour is undefined.  With [SPRITE_COUNT] records
    or more it is defined. *)
Theorem unchecked_mapping {rng : Type} `{RandomSource rng}
        (app : AppContext) (env : FrameEnv) (wd : World rng) :
  builds env = true ->
  (snd (run (SDL_AppIterate app env) wd) = None <->
   (length (mapped_memory env) < SPRITE_COUNT)%nat).
Proof.
  intros Hb. split.
  - intros Hnone. destruct (Nat.lt_ge_cases (length (mapped_memory env)) SPRITE_COUNT)
      as [Hlt | Hge]; [exact Hlt |].
    rewrite iterate_returns_quit_status in Hnone; [discriminate |].
    unfold frame_succeeds. destruct (builds_inv env Hb) as (c & t & -> & -> & ->).
    by apply bool_decide_eq_true_2.
  - by apply iterate_undefined.
Qed.

Lemma unchecked_mapping_witness :
  snd (run (SDL_AppIterate app0
              {| acquired_command_buffer := Some 7%nat; swapchain_acquired := true;
                 swapchainTexture := Some 8%nat; mapped_memory := [];
                 window_size := (640, 480); frame_error := "" |})
           world_before_init) = None.
Proof.
  apply (proj2 (unchecked_mapping app0
                  {| acquired_command_buffer := Some 7%nat; swapchain_acquired := true;
                     swapchainTexture := Some 8%nat; mapped_memory := [];
                     window_size := (640, 480); frame_error := "" |}
                  world_before_init eq_refl)).
  apply (slot_in_range 0 eq_refl).
Defined.



(** * Further properties of start-up *)

(** Runs a command on a world whose fields are known. *)
Ltac run_cmd :=
  lazy beta iota zeta delta [check check_ptr SDL_Fail bind call ret return_ set_world
                             copy_pixels undefined fst snd negb
                        rand_state SpriteDataTransferBuffer SpriteDataBuffer trace].

(** The copy of the atlas pixels is defined when the mapping succeeded
    and the byte count is a non-negative [int]; it then fits the transfer
    buffer, whose size is the same count as a [Uint32]. *)
Lemma copy_condition (mapped : bool) (image_w image_h : Z) :
  mapped && in_int (image_w * image_h) && in_int (image_w * image_h * 4) &&
  (0 <=? image_w * image_h * 4) &&
  (image_w * image_h * 4 <=? to_Uint32 (image_w * image_h * 4)) =
  mapped && (0 <=? image_w * image_h) && (image_w * image_h * 4 <? 2 ^ 31).
Proof.
  unfold in_int, to_Uint32. generalize (image_w * image_h). intros n.
  destruct mapped; [| reflexivity]. cbn [andb].
  assert (Hbound := Z.mod_pos_bound (n * 4) (2 ^ 32) ltac:(lia)).
  assert (Hsmall := Z.mod_small (n * 4) (2 ^ 32)).
  repeat match goal with
         | |- context [Z.leb ?a ?b] => destruct (Z.leb_spec a b)
         | |- context [Z.ltb ?a ?b] => destruct (Z.ltb_spec a b)
         end; cbn [andb]; try reflexivity; lia.
Qed.

(** An early return of [SDL_AppInit], before or after it has seeded the
    generator. *)
Ltac returns_early :=
  run_cmd; rewrite <- ?app_assoc; cbn [app];
  eexists; split; [reflexivity |];
  split; [first [reflexivity | eassumption] |];
  repeat split;
  first [left; split; reflexivity | right; split; reflexivity].

Section InitCases.
Context {rng : Type} `{RandomSource rng}.

(** Every way through [SDL_AppInit]. *)
Lemma init_cases (env : InitEnv (rng := rng)) (wd : World rng) :
  exists post,
    trace (fst (SDL_AppInit env wd)) = trace wd ++ post /\
    match snd (SDL_AppInit env wd) with
    | Value (app, res) =>
        init_defined env = true /\
        init_succeeded env (fst (SDL_AppInit env wd)) post app res
    | Returned res =>
        init_defined env = true /\
        init_failed env wd (fst (SDL_AppInit env wd)) post res
    | Undefined => init_undefined env (fst (SDL_AppInit env wd)) post
    end.
Proof.
  destruct wd as [s0 t0 b0 tr0].
  unfold init_succeeded, init_failed, init_undefined, init_defined, atlas_size,
    init_checks, SDL_AppInit. cbv zeta.
  destruct (SDL_Init_ok env) eqn:E1; [| returns_early].
  destruct (TTF_Init_ok env) eqn:E2; [| returns_early].
  destruct (SDL_CreateWindow env) as [win |] eqn:E3; [| returns_early].
  destruct (SDL_GetBasePath env) as [basePath |] eqn:E4; [| returns_early].
  destruct (SDL_CreateGPUDevice env) as [dev |] eqn:E5; [| returns_early].
  destruct (SDL_ClaimWindowForGPUDevice env) eqn:E6; [| returns_early].
  run_cmd.
  destruct (LoadImage env basePath "ravioli_atlas.bmp")
    as [[[surface image_w] image_h] |] eqn:E7; [| returns_early].
  run_cmd. rewrite copy_condition.
  destruct (texture_transfer_mapped env && (0 <=? image_w * image_h) &&
            (image_w * image_h * 4 <? 2 ^ 31)) eqn:Ecopy;
    [| run_cmd; rewrite <- ?app_assoc; cbn [app];
       eexists; split; [reflexivity |]; split; [exact Ecopy |];
       do 4 (split; [reflexivity |]); exists dev; split; reflexivity].
  run_cmd.
  destruct (TTF_OpenFont env (path_append basePath "Inter-VariableFont.ttf"))
    as [font |] eqn:E8; [| returns_early].
  run_cmd.
  destruct (SDL_OpenAudioDevice env) as [audio |] eqn:E9; [| returns_early].
  destruct (Mix_OpenAudio env) eqn:E10;
    [| destruct (Mix_LoadMUS env (path_append basePath "the_entertainer.ogg"));
       returns_early].
  run_cmd.
  destruct (Mix_LoadMUS env (path_append basePath "the_entertainer.ogg"))
    as [mus |] eqn:E11; [| returns_early].
  run_cmd.
  destruct (SDL_GetWindowSize env) as [width height] eqn:E12.
  destruct (SDL_GetWindowSizeInPixels env) as [bbwidth bbheight] eqn:E13.
  run_cmd.
  destruct (width =? bbwidth) eqn:E14; run_cmd; rewrite <- ?app_assoc; cbn [app];
    (eexists; split; [reflexivity |]); (split; [exact Ecopy |]);
    cbn [window device audioDevice music app_quit];
    (do 6 (split; [reflexivity |]));
    (split; [exists basePath; split; [reflexivity |]; split; [exact E11 | reflexivity] |]);
    repeat split.
Qed.

End InitCases.

Section InitCorollaries.
Context {rng : Type} `{RandomSource rng}.

(** [init_cases], seen through [app_init]. *)
Lemma app_init_cases (env : InitEnv (rng := rng)) (wd : World rng) :
  exists post,
    trace (fst (fst (app_init env wd))) = trace wd ++ post /\
    match app_init env wd with
    | (wd', Some res, Some app) =>
        init_defined env = true /\ init_succeeded env wd' post app res
    | (wd', Some res, None) =>
        init_defined env = true /\ init_failed env wd wd' post res
    | (wd', None, None) => init_undefined env wd' post
    | (_, None, Some _) => False
    end.
Proof.
  destruct (init_cases env wd) as (post & Htrace & Hcase). exists post.
  unfold app_init. destruct (SDL_AppInit env wd) as [wd' [[app res] | res |]];
    cbn [fst snd] in *; split; assumption.
Qed.

Lemma existsb_filter_nonempty (P : Call -> bool) (l : list Call) :
  existsb P l = true <-> filter (fun c => P c = true) l <> [].
Proof.
  induction l as [| c l IH]; [done |]. cbn [existsb]. rewrite filter_cons.
  destruct (P c) eqn:HP.
  - rewrite decide_True by done. cbn [orb]. split; [discriminate | reflexivity].
  - rewrite decide_False by done. exact IH.
Qed.

(** A frame adds no call of [SDL_srand] to the trace. *)
Lemma iterate_never_seeds (app : AppContext) (env : FrameEnv) (wd : World rng) :
  exists post,
    trace (fst (run (SDL_AppIterate app env) wd)) = trace wd ++ post /\
    existsb is_srand post = false.
Proof.
  destruct wd as [s0 transfer0 buffer0 trace0]. unfold run, SDL_AppIterate.
  destruct (acquired_command_buffer env) as [c |];
    [| run_cmd; rewrite <- ?app_assoc; by eexists].
  destruct (swapchain_acquired env);
    [| run_cmd; rewrite <- ?app_assoc; by eexists].
  destruct (swapchainTexture env) as [t |];
    [| run_cmd; rewrite <- ?app_assoc; by eexists].
  lazy beta iota delta [build_transfer upload_instances render_sprites bind call ret
                        fst snd negb
                        rand_state SpriteDataTransferBuffer SpriteDataBuffer trace].
  destruct (build_sprites s0 (mapped_memory env)) as [[s1 data] |];
    cbn [fst trace]; rewrite <- ?app_assoc; by eexists.
Qed.

Lemma run_never_seeds (app : AppContext) (envs : list FrameEnv) :
  forall (wd : World rng) (k : nat) (f : World rng),
    frames_from app envs wd !! k = Some f ->
    exists post, trace f = trace wd ++ post /\ existsb is_srand post = false.
Proof.
  induction envs as [| env envs IH]; intros wd k f Hf; [done |].
  cbn [frames_from] in Hf.
  destruct (iterate_never_seeds app env wd) as (post1 & H1 & HP1).
  destruct k as [| k].
  - injection Hf as <-. by exists post1.
  - destruct (IH _ _ _ Hf) as (post2 & H2 & HP2).
    exists (post1 ++ post2). rewrite H2, H1, app_assoc. split; [done |].
    by rewrite existsb_app, HP1, HP2.
Qed.

End InitCorollaries.

(** [SDL_AppInit], result.  Start-up copies the atlas pixels through
    the pointer [SDL_MapGPUTransferBuffer] returns without testing it: its
    behaviour is undefined exactly when it gets as far as the copy and the
    mapping has failed or the byte count [w * h * 4] is not a non-negative
    [int].  In every other case it returns the continue signal and stores a
    context when the eleven calls it tests all succeed ([SDL_Init],
    [TTF_Init], window, base path, GPU device, claiming the window, the
    atlas image, the font, the audio device, [Mix_OpenAudio], the music),
    and returns the failure signal and stores none when one of them fails.
    What the other untested calls return (shaders, pipeline, SVG) plays no
    role. *)
Theorem init_result {rng : Type} `{RandomSource rng}
        (env : InitEnv (rng := rng)) (wd : World rng) :
  snd (fst (app_init env wd)) =
    (if init_defined env
     then Some (if init_checks env then SDL_APP_CONTINUE else SDL_APP_FAILURE)
     else None) /\
  (is_Some (snd (app_init env wd)) <->
   init_defined env = true /\ init_checks env = true).
Proof.
  destruct (app_init_cases env wd) as (post & _ & Hcase).
  destruct (app_init env wd) as [[wd' [res |]] [app |]]; cbn [fst snd].
  - destruct Hcase as (-> & -> & -> & _). split; [reflexivity |].
    split; [intros _; split; reflexivity | intros _; eexists; reflexivity].
  - destruct Hcase as (-> & -> & -> & _). split; [reflexivity |].
    split; [intros [? Hsome]; discriminate Hsome | intros [_ Hchk]; discriminate Hchk].
  - destruct Hcase.
  - destruct Hcase as (-> & _). split; [reflexivity |].
    split; [intros [? Hsome]; discriminate Hsome | intros [Hdef _]; discriminate Hdef].
Qed.

Lemma init_result_witness :
  snd (fst (app_init (init_env [] []) world_before_init)) = Some SDL_APP_CONTINUE /\
  snd (fst (app_init (init_env ["/app/the_entertainer.ogg"] []) world_before_init)) =
    Some SDL_APP_FAILURE /\
  snd (fst (app_init (start_env false (64, 64) [] []) world_before_init)) = None /\
  snd (fst (app_init (start_env true (32768, 32768) [] []) world_before_init)) = None /\
  snd (fst (app_init (start_env false (64, 64) ["ravioli_atlas.bmp"] [])
                     world_before_init)) = Some SDL_APP_FAILURE.
Proof.
  split; [| split; [| split; [| split]]].
  - exact (proj1 (init_result (init_env [] []) world_before_init)).
  - exact (proj1 (init_result (init_env ["/app/the_entertainer.ogg"] [])
                              world_before_init)).
  - exact (proj1 (init_result (start_env false (64, 64) [] []) world_before_init)).
  - exact (proj1 (init_result (start_env true (32768, 32768) [] []) world_before_init)).
  - exact (proj1 (init_result (start_env false (64, 64) ["ravioli_atlas.bmp"] [])
                              world_before_init)).
Defined.

(** [SDL_AppInit], error log: start-up logs an error exactly when it
    returns the failure signal; it then logs it once, with the text of
    [SDL_GetError], as the last call it makes. *)
Theorem init_logs_error_iff_it_fails {rng : Type} `{RandomSource rng}
        (env : InitEnv (rng := rng)) (wd : World rng) :
  exists post,
    trace (fst (fst (app_init env wd))) = trace wd ++ post /\
    (existsb is_error_log post = true <->
     snd (fst (app_init env wd)) = Some SDL_APP_FAILURE) /\
    (snd (fst (app_init env wd)) = Some SDL_APP_FAILURE ->
     last post = Some (SDL_LogError "Error %s" [ArgStr (init_error env)]) /\
     length (filter (fun c => is_error_log c = true) post) = 1%nat).
Proof.
  destruct (app_init_cases env wd) as (post & Htrace & Hcase). exists post.
  split; [exact Htrace |].
  destruct (app_init env wd) as [[wd' [res |]] [app |]]; cbn [fst snd] in *.
  - destruct Hcase as (_ & _ & -> & _ & _ & _ & _ & _ & _ & _ & _ & Hno & _).
    rewrite Hno. split; [split; discriminate | discriminate].
  - destruct Hcase as (_ & _ & -> & Hlast & Hone & _).
    split; [| done]. split; [done |]. intros _.
    apply existsb_filter_nonempty. intros Hnil. by rewrite Hnil in Hone.
  - destruct Hcase.
  - destruct Hcase as (_ & Hno & _).
    rewrite Hno. split; [split; discriminate | discriminate].
Qed.

(** Seeding over a whole run: between the start of [SDL_AppInit] and the
    end of any frame after it, [SDL_srand] is called at most once, with
    seed 0; it is called exactly once when start-up succeeds.  No frame
    reseeds the generator. *)
Theorem generator_seeded_at_most_once {rng : Type} `{RandomSource rng}
        (env : InitEnv (rng := rng)) (wd0 : World rng) (app : AppContext)
        (envs : list FrameEnv) (k : nat) (f : World rng) :
  frames_from app envs (fst (fst (app_init env wd0))) !! k = Some f ->
  exists post,
    trace f = trace wd0 ++ post /\
    (filter (fun c => is_srand c = true) post = [] \/
     filter (fun c => is_srand c = true) post = [SDL_srand 0]) /\
    (init_checks env = true ->
     filter (fun c => is_srand c = true) post = [SDL_srand 0]).
Proof.
  intros Hf. destruct (run_never_seeds app envs _ k f Hf) as (post2 & H2 & HP2).
  destruct (app_init_cases env wd0) as (post1 & H1 & Hcase).
  exists (post1 ++ post2). rewrite H2, H1, app_assoc. split; [done |].
  assert (Hnone : filter (fun c => is_srand c = true) post2 = []).
  { destruct (filter (fun c => is_srand c = true) post2) eqn:E; [done |].
    assert (Hex : existsb is_srand post2 = true)
      by (apply existsb_filter_nonempty; by rewrite E).
    by rewrite Hex in HP2. }
  rewrite filter_app, Hnone, app_nil_r.
  destruct (app_init env wd0) as [[wd' [res |]] [app' |]]; cbn [fst snd] in *.
  - destruct Hcase as (_ & _ & _ & _ & _ & _ & _ & _ & _ & _ & _ & _ & Hs & _).
    rewrite Hs. split; [by right | done].
  - destruct Hcase as (_ & Hchk & _ & _ & _ & _ & [[-> _] | [-> _]]);
      (split; [by (left + right) | by rewrite Hchk]).
  - destruct Hcase.
  - destruct Hcase as (_ & _ & _ & Hs & _).
    rewrite Hs. split; [by right | done].
Qed.

Lemma generator_seeded_at_most_once_witness :
  exists f post,
    frames_from app0 [frame_of (640, 480) F32.zero; frame_without_texture]
                (fst (fst (app_init (init_env [] []) world_before_init))) !! 1%nat = Some f /\
    trace f = post /\
    filter (fun c => is_srand c = true) post = [SDL_srand 0].
Proof.
  set (w1 := fst (fst (app_init (init_env [] []) world_before_init))).
  set (w2 := fst (run (SDL_AppIterate app0 (frame_of (640, 480) F32.zero)) w1)).
  set (w3 := fst (run (SDL_AppIterate app0 frame_without_texture) w2)).
  destruct (generator_seeded_at_most_once (init_env [] []) world_before_init app0
              [frame_of (640, 480) F32.zero; frame_without_texture] 1 w3 eq_refl)
    as (post & Htrace & _ & Hone).
  exists w3, post. split; [reflexivity |]. split; [exact Htrace |].
  apply Hone. reflexivity.
Defined.

(** [SDL_AppInit], what a successful start-up has done: it has played
    the music once, without looping; it has released both shaders it
    loaded; it has logged the high-DPI note exactly when the window is not
    as wide in pixels as in logical units; its last call logs the start. *)
Theorem successful_init_calls {rng : Type} `{RandomSource rng}
        (env : InitEnv (rng := rng)) (wd wd' : World rng) (res : option SDL_AppResult)
        (app : AppContext) :
  app_init env wd = (wd', res, Some app) ->
  exists post basePath,
    trace wd' = trace wd ++ post /\
    SDL_GetBasePath env = Some basePath /\
    filter (fun c => is_play_music c = true) post = [Mix_PlayMusic (music app) 0] /\
    Mix_LoadMUS env (path_append basePath "the_entertainer.ogg") = Some (music app) /\
    filter (fun c => is_release_shader c = true) post =
      [SDL_ReleaseGPUShader (LoadShader env basePath "PullSpriteBatch.vert");
       SDL_ReleaseGPUShader (LoadShader env basePath "TexturedQuadColor.frag")] /\
    (existsb is_highdpi_log post = true <->
     fst (SDL_GetWindowSize env) <> fst (SDL_GetWindowSizeInPixels env)) /\
    last post = Some (SDL_Log "Application started successfully!" []).
Proof.
  intros Hinit. destruct (app_init_cases env wd) as (post & Htrace & Hcase).
  rewrite Hinit in Htrace, Hcase. cbn [fst] in Htrace.
  destruct res as [res |]; [| destruct Hcase].
  destruct Hcase as (_ & _ & _ & _ & _ & _ & _ & (basePath & Hbase & Hmus & Hrel)
                     & _ & _ & _ & _ & _ & Hplay & Hlast & Hdpi).
  exists post, basePath. do 5 (split; [done |]). split; [| done].
  rewrite Hdpi. destruct (Z.eqb_spec (fst (SDL_GetWindowSize env))
                                     (fst (SDL_GetWindowSizeInPixels env))); cbn [negb];
    split; done.
Qed.

Lemma successful_init_calls_witness :
  exists post,
    trace (fst (fst (app_init (init_env [] []) world_before_init))) = post /\
    filter (fun c => is_play_music c = true) post = [Mix_PlayMusic 4%nat 0] /\
    existsb is_highdpi_log post = false.
Proof.
  assert (Hinit : app_init (init_env [] []) world_before_init =
                  (fst (fst (app_init (init_env [] []) world_before_init)),
                   snd (fst (app_init (init_env [] []) world_before_init)),
                   Some app0)).
  { generalize init_env_starts.
    generalize (app_init (init_env [] []) world_before_init).
    intros [[wd1 res] app] Happ. cbn [fst snd] in *. rewrite Happ. reflexivity. }
  destruct (successful_init_calls (init_env [] []) world_before_init _ _ app0 Hinit)
    as (post & basePath & Htrace & _ & Hplay & _ & _ & Hdpi & _).
  exists post. split; [exact Htrace |]. split; [exact Hplay |].
  destruct (existsb is_highdpi_log post); [| reflexivity].
  exfalso. apply (proj1 Hdpi eq_refl). reflexivity.
Defined.

(** Start-up and the first frame: [SDL_AppInit] seeds the generator
    and draws nothing from it.  After a successful start-up, slot [j] of the
    first frame that reaches the build step holds the record made from the
    draws of the state [SDL_srand(0)] left, advanced by [j] sprites: its
    position and rotation are those draws, its UV origin the quadrant the
    first of them selects. *)
Theorem first_frame_after_init {rng : Type} `{RandomSource rng}
        (ienv : InitEnv (rng := rng)) (wd0 wd1 : World rng)
        (res : option SDL_AppResult) (app : AppContext) (env : FrameEnv) (j : nat) :
  app_init ienv wd0 = (wd1, res, Some app) ->
  builds env = true ->
  (SPRITE_COUNT <= length (mapped_memory env))%nat ->
  (j < SPRITE_COUNT)%nat ->
  let s0 := rng_at j (seeded ienv 0) in
  let s1 := snd (SDL_rand 4 s0) in
  let s2 := snd (SDL_rand 640 s1) in
  let s3 := snd (SDL_rand 480 s2) in
  exists old u v,
    mapped_memory env !! j = Some old /\
    uCoords !! Z.to_nat (fst (SDL_rand 4 s0)) = Some u /\
    vCoords !! Z.to_nat (fst (SDL_rand 4 s0)) = Some v /\
    SpriteDataTransferBuffer (fst (run (SDL_AppIterate app env) wd1)) !! j =
      Some {| x := F32.of_Z (fst (SDL_rand 640 s1));
              y := F32.of_Z (fst (SDL_rand 480 s2));
              z := F32.of_Z 0;
              rotation := F32.mul (F32.mul (fst (SDL_randf s3)) SDL_PI_F) (F32.of_Z 2);
              w := F32.of_Z 32; h := F32.of_Z 32;
              padding_a := padding_a old; padding_b := padding_b old;
              tex_u := u; tex_v := v; tex_w := F32.half; tex_h := F32.half;
              r := F32.one; g := F32.one; b := F32.one; a := F32.one |}.
Proof.
  intros Hinit Hb Hlen Hj. destruct (app_init_cases ienv wd0) as (post & _ & Hcase).
  rewrite Hinit in Hcase. destruct res as [res |]; [| destruct Hcase].
  destruct Hcase as (_ & _ & _ & _ & _ & _ & _ & _ & Hseed & _).
  rewrite <- Hseed.
  destruct (frame_record app env wd1 j Hb Hlen Hj)
    as (old & sp & u & v & Hold & _ & Hsp & Hu & Hv & Hrec).
  intros s0 s1 s2 s3. exists old, u, v.
  split; [exact Hold |]. split; [exact Hu |]. split; [exact Hv |].
  rewrite Hsp, Hrec. reflexivity.
Qed.

Lemma first_frame_after_init_witness :
  exists sp,
    SpriteDataTransferBuffer
      (fst (run (SDL_AppIterate app0 (frame_of (640, 480) F32.one))
                (fst (fst (app_init (init_env [] []) world_before_init))))) !! 0%nat
      = Some sp /\
    x sp = F32.of_Z 0 /\ tex_u sp = F32.zero /\ padding_a sp = F32.one.
Proof.
  assert (Hinit : app_init (init_env [] []) world_before_init =
                  (fst (fst (app_init (init_env [] []) world_before_init)),
                   snd (fst (app_init (init_env [] []) world_before_init)),
                   Some app0)).
  { generalize init_env_starts.
    generalize (app_init (init_env [] []) world_before_init).
    intros [[wd1 res] app] Happ. cbn [fst snd] in *. rewrite Happ. reflexivity. }
  destruct (first_frame_after_init (init_env [] []) world_before_init _ _ app0
              (frame_of (640, 480) F32.one) 0 Hinit eq_refl)
    as (old & u & v & Hold & Hu & _ & Hsp).
  - cbn [frame_of mapped_memory]. rewrite memory_of_length. apply Nat.le_refl.
  - apply (slot_in_range 0 eq_refl).
  - cbn [frame_of mapped_memory] in Hold.
    rewrite memory_of_lookup in Hold by (apply slot_in_range; reflexivity).
    injection Hold as <-.
    assert (Hq : uCoords !! Z.to_nat (fst (SDL_rand 4
                   (rng_at 0 (seeded (init_env [] []) 0)))) = Some F32.zero)
      by reflexivity.
    rewrite Hq in Hu. injection Hu as <-.
    eexists. split; [exact Hsp |]. cbn [x tex_u padding_a sprite_of].
    split; [| split; reflexivity].
    assert (Hdraw : fst (SDL_rand 640 (snd (SDL_rand 4
                      (rng_at 0 (seeded (init_env [] []) 0))))) = 0) by reflexivity.
    rewrite Hdraw. reflexivity.
Defined.

(** Start-up and shutdown: [SDL_AppQuit] ignores the result it is given
    and always ends by shutting the libraries down and logging a
    successful quit.  After a successful start-up it first releases the
    window, the device, the music and the audio device that start-up
    acquired, in this order.  After a failed start-up there is no context,
    and it releases none of them, whether or not the window and the device
    had been created.  (Start-up is taken to get past its unchecked copy of
    the atlas pixels; where it does not, its behaviour is undefined.) *)
Theorem quit_after_init {rng : Type} `{RandomSource rng}
        (env : InitEnv (rng := rng)) (wd : World rng) (result : SDL_AppResult) :
  let appstate := snd (app_init env wd) in
  let libraries :=
    [inr TTF_Quit; inr Mix_Quit;
     inl (SDL_Log "Application quit successfully!" []); inr SDL_Quit] in
  SDL_AppQuit appstate result = SDL_AppQuit appstate SDL_APP_SUCCESS /\
  (init_checks env = false -> SDL_AppQuit appstate result = libraries) /\
  (init_checks env = true ->
   init_defined env = true ->
   exists win dev audio mus basePath,
     SDL_CreateWindow env = Some win /\
     SDL_CreateGPUDevice env = Some dev /\
     SDL_OpenAudioDevice env = Some audio /\
     SDL_GetBasePath env = Some basePath /\
     Mix_LoadMUS env (path_append basePath "the_entertainer.ogg") = Some mus /\
     SDL_AppQuit appstate result =
       [inr (SDL_ReleaseWindowFromGPUDevice dev win);
        inr (SDL_DestroyWindow win);
        inr (SDL_DestroyGPUDevice dev);
        inr (Mix_FadeOutMusic 1000);
        inr (Mix_FreeMusic mus);
        inr Mix_CloseAudio;
        inr (SDL_CloseAudioDevice audio)] ++ libraries).
Proof.
  intros appstate libraries. subst appstate. split; [reflexivity |].
  destruct (app_init_cases env wd) as (post & _ & Hcase).
  destruct (app_init env wd) as [[wd' [res |]] [app |]]; cbn [snd].
  - destruct Hcase as (_ & Hchk & _ & _ & Hwin & Hdev & Haudio
                       & (basePath & Hbase & Hmus & _) & _).
    split; [by rewrite Hchk |]. intros _ _.
    by exists (window app), (device app), (audioDevice app), (music app), basePath.
  - destruct Hcase as (_ & Hchk & _). split; [done | by rewrite Hchk].
  - destruct Hcase.
  - destruct Hcase as (Hdef & _). split; [done | by rewrite Hdef].
Qed.

Lemma quit_after_init_witness :
  length (SDL_AppQuit (snd (app_init (init_env ["ravioli_atlas.bmp"] []) world_before_init))
                      SDL_APP_FAILURE) = 4%nat /\
  length (SDL_AppQuit (snd (app_init (init_env [] []) world_before_init))
                      SDL_APP_SUCCESS) = 11%nat.
Proof.
  split.
  - rewrite (proj1 (proj2 (quit_after_init (init_env ["ravioli_atlas.bmp"] [])
                                           world_before_init SDL_APP_FAILURE)) eq_refl).
    reflexivity.
  - destruct (proj2 (proj2 (quit_after_init (init_env [] []) world_before_init
                                            SDL_APP_SUCCESS)) eq_refl eq_refl)
      as (win & dev & audio & mus & basePath & _ & _ & _ & _ & _ & ->).
    reflexivity.
Defined.

